(** * Student Academic Guidance Engine: coordination core

    A shallow embedding of the coordination engine of the repository:

    - [src/utils/reducers.py]: [dict_reducer], the merge of two versions
      of a field of the shared state (module [Reducers]);
    - [src/utils/context.py]: [parse_coordinator_response], which turns
      the coordinator's rationale into a dispatch plan (module
      [ContextUtils]);
    - [src/agents/planner.py], [notewriter.py], [advisor.py]: the
      [__call__] of each worker (module [Agents]);
    - [src/executor/agent_executor.py]: [AgentExecutor.execute] (module
      [Executor]).

    Python values are modelled by the inductive type [Py.value]; a Python
    [dict] is an association list in insertion order, which is the order
    Python keeps.  A string is the sequence of bytes of its UTF-8
    encoding, on which Python's substring test is the substring test on
    bytes.  Code that can raise returns a [Py.result]; the exceptions are
    those of class [Exception].

    The merge updates a freshly copied dictionary in place.  It is
    modelled twice: over a store of dictionary objects
    ([Reducers.Store.dict_reducer]), the way the code runs, and as a
    function on trees ([Reducers.dict_reducer]); the first is proved to
    compute the second.

    What lies outside the repository is a parameter: [str.lower] is the
    function [lower], and the compiled step sequence of a worker, with the
    language model behind it, is a function of type [Agents.workflow]. *)

From Stdlib Require Import ZArith NArith String Ascii Bool Lia.
From stdpp Require Import base option list strings.

Open Scope string_scope.

(** ** Python values, exceptions and the builtin operations the code uses *)

Module Py.

(** The values that flow through the shared state: [None], integers,
    strings, lists and string-keyed dictionaries. *)
#[warnings="-register-all"]
Inductive value : Type :=
| VNone
| VNum (n : Z)
| VStr (s : string)
| VList (xs : list value)
| VDict (items : list (string * value)).

Definition dict : Type := list (string * value).

(** Exceptions, all of them instances of Python's [Exception]. *)
Inductive exn : Type :=
| KeyError (key : string)
| TypeError (msg : string)
| AttributeError (msg : string)
| OtherError (cls msg : string).

(** *** [repr] of a text

    A [string] holds the UTF-8 encoding of a Python text.  [repr] puts the
    text between single quotes, or between double quotes when it holds a
    single quote and no double quote; it escapes the quote in use, the
    backslash, tab, newline and carriage return, and writes every other
    character that is not printable as a hexadecimal escape of its code
    point.  *)

Definition apostrophe : ascii := ascii_of_nat 39.
Definition double_quote : ascii := ascii_of_nat 34.
Definition backslash : ascii := ascii_of_nat 92.

Definition hex_digit (d : N) : ascii :=
  nth (N.to_nat d) (list_ascii_of_string "0123456789abcdef") "0"%char.

(** [n] written with [digits] hexadecimal digits, as [%0*x] does. *)
Fixpoint hex (digits : nat) (n : N) : string :=
  match digits with
  | O => ""
  | S digits' => hex digits' (n / 16)%N ++ String (hex_digit (n mod 16)%N) ""
  end.

(** The code points from 128 on that [str.isprintable] rejects: the
    general categories Cc, Cf, Cs, Co, Cn, Zl, Zp and Zs of the Unicode
    database of CPython 3.11 (Unicode 14.0), as closed ranges. *)
Definition non_printable : list (N * N) :=
  [(128, 160); (173, 173); (888, 889); (896, 899); (907, 907); (909, 909);
   (930, 930); (1328, 1328); (1367, 1368); (1419, 1420); (1424, 1424);
   (1480, 1487); (1515, 1518); (1525, 1541); (1564, 1564); (1757, 1757);
   (1806, 1807); (1867, 1868); (1970, 1983); (2043, 2044); (2094, 2095);
   (2111, 2111); (2140, 2141); (2143, 2143); (2155, 2159); (2191, 2199);
   (2274, 2274); (2436, 2436); (2445, 2446); (2449, 2450); (2473, 2473);
   (2481, 2481); (2483, 2485); (2490, 2491); (2501, 2502); (2505, 2506);
   (2511, 2518); (2520, 2523); (2526, 2526); (2532, 2533); (2559, 2560);
   (2564, 2564); (2571, 2574); (2577, 2578); (2601, 2601); (2609, 2609);
   (2612, 2612); (2615, 2615); (2618, 2619); (2621, 2621); (2627, 2630);
   (2633, 2634); (2638, 2640); (2642, 2648); (2653, 2653); (2655, 2661);
   (2679, 2688); (2692, 2692); (2702, 2702); (2706, 2706); (2729, 2729);
   (2737, 2737); (2740, 2740); (2746, 2747); (2758, 2758); (2762, 2762);
   (2766, 2767); (2769, 2783); (2788, 2789); (2802, 2808); (2816, 2816);
   (2820, 2820); (2829, 2830); (2833, 2834); (2857, 2857); (2865, 2865);
   (2868, 2868); (2874, 2875); (2885, 2886); (2889, 2890); (2894, 2900);
   (2904, 2907); (2910, 2910); (2916, 2917); (2936, 2945); (2948, 2948);
   (2955, 2957); (2961, 2961); (2966, 2968); (2971, 2971); (2973, 2973);
   (2976, 2978); (2981, 2983); (2987, 2989); (3002, 3005); (3011, 3013);
   (3017, 3017); (3022, 3023); (3025, 3030); (3032, 3045); (3067, 3071);
   (3085, 3085); (3089, 3089); (3113, 3113); (3130, 3131); (3141, 3141);
   (3145, 3145); (3150, 3156); (3159, 3159); (3163, 3164); (3166, 3167);
   (3172, 3173); (3184, 3190); (3213, 3213); (3217, 3217); (3241, 3241);
   (3252, 3252); (3258, 3259); (3269, 3269); (3273, 3273); (3278, 3284);
   (3287, 3292); (3295, 3295); (3300, 3301); (3312, 3312); (3315, 3327);
   (3341, 3341); (3345, 3345); (3397, 3397); (3401, 3401); (3408, 3411);
   (3428, 3429); (3456, 3456); (3460, 3460); (3479, 3481); (3506, 3506);
   (3516, 3516); (3518, 3519); (3527, 3529); (3531, 3534); (3541, 3541);
   (3543, 3543); (3552, 3557); (3568, 3569); (3573, 3584); (3643, 3646);
   (3676, 3712); (3715, 3715); (3717, 3717); (3723, 3723); (3748, 3748);
   (3750, 3750); (3774, 3775); (3781, 3781); (3783, 3783); (3790, 3791);
   (3802, 3803); (3808, 3839); (3912, 3912); (3949, 3952); (3992, 3992);
   (4029, 4029); (4045, 4045); (4059, 4095); (4294, 4294); (4296, 4300);
   (4302, 4303); (4681, 4681); (4686, 4687); (4695, 4695); (4697, 4697);
   (4702, 4703); (4745, 4745); (4750, 4751); (4785, 4785); (4790, 4791);
   (4799, 4799); (4801, 4801); (4806, 4807); (4823, 4823); (4881, 4881);
   (4886, 4887); (4955, 4956); (4989, 4991); (5018, 5023); (5110, 5111);
   (5118, 5119); (5760, 5760); (5789, 5791); (5881, 5887); (5910, 5918);
   (5943, 5951); (5972, 5983); (5997, 5997); (6001, 6001); (6004, 6015);
   (6110, 6111); (6122, 6127); (6138, 6143); (6158, 6158); (6170, 6175);
   (6265, 6271); (6315, 6319); (6390, 6399); (6431, 6431); (6444, 6447);
   (6460, 6463); (6465, 6467); (6510, 6511); (6517, 6527); (6572, 6575);
   (6602, 6607); (6619, 6621); (6684, 6685); (6751, 6751); (6781, 6782);
   (6794, 6799); (6810, 6815); (6830, 6831); (6863, 6911); (6989, 6991);
   (7039, 7039); (7156, 7163); (7224, 7226); (7242, 7244); (7305, 7311);
   (7355, 7356); (7368, 7375); (7419, 7423); (7958, 7959); (7966, 7967);
   (8006, 8007); (8014, 8015); (8024, 8024); (8026, 8026); (8028, 8028);
   (8030, 8030); (8062, 8063); (8117, 8117); (8133, 8133); (8148, 8149);
   (8156, 8156); (8176, 8177); (8181, 8181); (8191, 8207); (8232, 8239);
   (8287, 8303); (8306, 8307); (8335, 8335); (8349, 8351); (8385, 8399);
   (8433, 8447); (8588, 8591); (9255, 9279); (9291, 9311); (11124, 11125);
   (11158, 11158); (11508, 11512); (11558, 11558); (11560, 11564);
   (11566, 11567); (11624, 11630); (11633, 11646); (11671, 11679);
   (11687, 11687); (11695, 11695); (11703, 11703); (11711, 11711);
   (11719, 11719); (11727, 11727); (11735, 11735); (11743, 11743);
   (11870, 11903); (11930, 11930); (12020, 12031); (12246, 12271);
   (12284, 12288); (12352, 12352); (12439, 12440); (12544, 12548);
   (12592, 12592); (12687, 12687); (12772, 12783); (12831, 12831);
   (42125, 42127); (42183, 42191); (42540, 42559); (42744, 42751);
   (42955, 42959); (42962, 42962); (42964, 42964); (42970, 42993);
   (43053, 43055); (43066, 43071); (43128, 43135); (43206, 43213);
   (43226, 43231); (43348, 43358); (43389, 43391); (43470, 43470);
   (43482, 43485); (43519, 43519); (43575, 43583); (43598, 43599);
   (43610, 43611); (43715, 43738); (43767, 43776); (43783, 43784);
   (43791, 43792); (43799, 43807); (43815, 43815); (43823, 43823);
   (43884, 43887); (44014, 44015); (44026, 44031); (55204, 55215);
   (55239, 55242); (55292, 63743); (64110, 64111); (64218, 64255);
   (64263, 64274); (64280, 64284); (64311, 64311); (64317, 64317);
   (64319, 64319); (64322, 64322); (64325, 64325); (64451, 64466);
   (64912, 64913); (64968, 64974); (64976, 65007); (65050, 65055);
   (65107, 65107); (65127, 65127); (65132, 65135); (65141, 65141);
   (65277, 65280); (65471, 65473); (65480, 65481); (65488, 65489);
   (65496, 65497); (65501, 65503); (65511, 65511); (65519, 65531);
   (65534, 65535); (65548, 65548); (65575, 65575); (65595, 65595);
   (65598, 65598); (65614, 65615); (65630, 65663); (65787, 65791);
   (65795, 65798); (65844, 65846); (65935, 65935); (65949, 65951);
   (65953, 65999); (66046, 66175); (66205, 66207); (66257, 66271);
   (66300, 66303); (66340, 66348); (66379, 66383); (66427, 66431);
   (66462, 66462); (66500, 66503); (66518, 66559); (66718, 66719);
   (66730, 66735); (66772, 66775); (66812, 66815); (66856, 66863);
   (66916, 66926); (66939, 66939); (66955, 66955); (66963, 66963);
   (66966, 66966); (66978, 66978); (66994, 66994); (67002, 67002);
   (67005, 67071); (67383, 67391); (67414, 67423); (67432, 67455);
   (67462, 67462); (67505, 67505); (67515, 67583); (67590, 67591);
   (67593, 67593); (67638, 67638); (67641, 67643); (67645, 67646);
   (67670, 67670); (67743, 67750); (67760, 67807); (67827, 67827);
   (67830, 67834); (67868, 67870); (67898, 67902); (67904, 67967);
   (68024, 68027); (68048, 68049); (68100, 68100); (68103, 68107);
   (68116, 68116); (68120, 68120); (68150, 68151); (68155, 68158);
   (68169, 68175); (68185, 68191); (68256, 68287); (68327, 68330);
   (68343, 68351); (68406, 68408); (68438, 68439); (68467, 68471);
   (68498, 68504); (68509, 68520); (68528, 68607); (68681, 68735);
   (68787, 68799); (68851, 68857); (68904, 68911); (68922, 69215);
   (69247, 69247); (69290, 69290); (69294, 69295); (69298, 69375);
   (69416, 69423); (69466, 69487); (69514, 69551); (69580, 69599);
   (69623, 69631); (69710, 69713); (69750, 69758); (69821, 69821);
   (69827, 69839); (69865, 69871); (69882, 69887); (69941, 69941);
   (69960, 69967); (70007, 70015); (70112, 70112); (70133, 70143);
   (70162, 70162); (70207, 70271); (70279, 70279); (70281, 70281);
   (70286, 70286); (70302, 70302); (70314, 70319); (70379, 70383);
   (70394, 70399); (70404, 70404); (70413, 70414); (70417, 70418);
   (70441, 70441); (70449, 70449); (70452, 70452); (70458, 70458);
   (70469, 70470); (70473, 70474); (70478, 70479); (70481, 70486);
   (70488, 70492); (70500, 70501); (70509, 70511); (70517, 70655);
   (70748, 70748); (70754, 70783); (70856, 70863); (70874, 71039);
   (71094, 71095); (71134, 71167); (71237, 71247); (71258, 71263);
   (71277, 71295); (71354, 71359); (71370, 71423); (71451, 71452);
   (71468, 71471); (71495, 71679); (71740, 71839); (71923, 71934);
   (71943, 71944); (71946, 71947); (71956, 71956); (71959, 71959);
   (71990, 71990); (71993, 71994); (72007, 72015); (72026, 72095);
   (72104, 72105); (72152, 72153); (72165, 72191); (72264, 72271);
   (72355, 72367); (72441, 72703); (72713, 72713); (72759, 72759);
   (72774, 72783); (72813, 72815); (72848, 72849); (72872, 72872);
   (72887, 72959); (72967, 72967); (72970, 72970); (73015, 73017);
   (73019, 73019); (73022, 73022); (73032, 73039); (73050, 73055);
   (73062, 73062); (73065, 73065); (73103, 73103); (73106, 73106);
   (73113, 73119); (73130, 73439); (73465, 73647); (73649, 73663);
   (73714, 73726); (74650, 74751); (74863, 74863); (74869, 74879);
   (75076, 77711); (77811, 77823); (78895, 82943); (83527, 92159);
   (92729, 92735); (92767, 92767); (92778, 92781); (92863, 92863);
   (92874, 92879); (92910, 92911); (92918, 92927); (92998, 93007);
   (93018, 93018); (93026, 93026); (93048, 93052); (93072, 93759);
   (93851, 93951); (94027, 94030); (94088, 94094); (94112, 94175);
   (94181, 94191); (94194, 94207); (100344, 100351); (101590, 101631);
   (101641, 110575); (110580, 110580); (110588, 110588); (110591, 110591);
   (110883, 110927); (110931, 110947); (110952, 110959); (111356, 113663);
   (113771, 113775); (113789, 113791); (113801, 113807); (113818, 113819);
   (113824, 118527); (118574, 118575); (118599, 118607); (118724, 118783);
   (119030, 119039); (119079, 119080); (119155, 119162); (119275, 119295);
   (119366, 119519); (119540, 119551); (119639, 119647); (119673, 119807);
   (119893, 119893); (119965, 119965); (119968, 119969); (119971, 119972);
   (119975, 119976); (119981, 119981); (119994, 119994); (119996, 119996);
   (120004, 120004); (120070, 120070); (120075, 120076); (120085, 120085);
   (120093, 120093); (120122, 120122); (120127, 120127); (120133, 120133);
   (120135, 120137); (120145, 120145); (120486, 120487); (120780, 120781);
   (121484, 121498); (121504, 121504); (121520, 122623); (122655, 122879);
   (122887, 122887); (122905, 122906); (122914, 122914); (122917, 122917);
   (122923, 123135); (123181, 123183); (123198, 123199); (123210, 123213);
   (123216, 123535); (123567, 123583); (123642, 123646); (123648, 124895);
   (124903, 124903); (124908, 124908); (124911, 124911); (124927, 124927);
   (125125, 125126); (125143, 125183); (125260, 125263); (125274, 125277);
   (125280, 126064); (126133, 126208); (126270, 126463); (126468, 126468);
   (126496, 126496); (126499, 126499); (126501, 126502); (126504, 126504);
   (126515, 126515); (126520, 126520); (126522, 126522); (126524, 126529);
   (126531, 126534); (126536, 126536); (126538, 126538); (126540, 126540);
   (126544, 126544); (126547, 126547); (126549, 126550); (126552, 126552);
   (126554, 126554); (126556, 126556); (126558, 126558); (126560, 126560);
   (126563, 126563); (126565, 126566); (126571, 126571); (126579, 126579);
   (126584, 126584); (126589, 126589); (126591, 126591); (126602, 126602);
   (126620, 126624); (126628, 126628); (126634, 126634); (126652, 126703);
   (126706, 126975); (127020, 127023); (127124, 127135); (127151, 127152);
   (127168, 127168); (127184, 127184); (127222, 127231); (127406, 127461);
   (127491, 127503); (127548, 127551); (127561, 127567); (127570, 127583);
   (127590, 127743); (128728, 128732); (128749, 128751); (128765, 128767);
   (128884, 128895); (128985, 128991); (129004, 129007); (129009, 129023);
   (129036, 129039); (129096, 129103); (129114, 129119); (129160, 129167);
   (129198, 129199); (129202, 129279); (129620, 129631); (129646, 129647);
   (129653, 129655); (129661, 129663); (129671, 129679); (129709, 129711);
   (129723, 129727); (129734, 129743); (129754, 129759); (129768, 129775);
   (129783, 129791); (129939, 129939); (129995, 130031); (130042, 131071);
   (173792, 173823); (177977, 177983); (178206, 178207); (183970, 183983);
   (191457, 194559); (195102, 196607); (201547, 917759); (918000, 1114111)]%N.

Definition printable (cp : N) : bool :=
  negb (existsb (fun '(lo, hi) => (lo <=? cp)%N && (cp <=? hi)%N)
          non_printable).

(** The escape of a code point: [\xhh], [\uhhhh] or [\Uhhhhhhhh]. *)
Definition escape (cp : N) : string :=
  String backslash
    (if (cp <=? 255)%N then "x" ++ hex 2 cp
     else if (cp <=? 65535)%N then "u" ++ hex 4 cp
     else "U" ++ hex 8 cp).

(** A character below 128. *)
Definition repr_ascii (quote c : ascii) : string :=
  let n := N_of_ascii c in
  if Ascii.eqb c quote || Ascii.eqb c backslash then String backslash (String c "")
  else if (n =? 9)%N then String backslash "t"
  else if (n =? 10)%N then String backslash "n"
  else if (n =? 13)%N then String backslash "r"
  else if (n <? 32)%N || (n =? 127)%N then escape n
  else String c "".

(** A character from 128 on, with its code point and its encoding. *)
Definition repr_wide (cp : N) (encoding : string) : string :=
  if printable cp then encoding else escape cp.

(** The payload bits of a continuation byte. *)
Definition low6 (c : ascii) : N := N.land (N_of_ascii c) 63.

(** The text between the quotes.  A character from 128 on is decoded from
    the two, three or four bytes of its encoding; a sequence cut short,
    which no encoding of a text has, is written as the escape of its first
    byte. *)
Fixpoint repr_body (quote : ascii) (s : string) : string :=
  match s with
  | EmptyString => ""
  | String c rest =>
      let n := N_of_ascii c in
      if (n <? 128)%N then repr_ascii quote c ++ repr_body quote rest
      else if (n <? 224)%N then
        match rest with
        | String c1 rest =>
            repr_wide (N.land n 31 * 64 + low6 c1)%N (String c (String c1 ""))
              ++ repr_body quote rest
        | _ => escape n
        end
      else if (n <? 240)%N then
        match rest with
        | String c1 (String c2 rest) =>
            repr_wide ((N.land n 15 * 64 + low6 c1) * 64 + low6 c2)%N
              (String c (String c1 (String c2 "")))
              ++ repr_body quote rest
        | _ => escape n
        end
      else
        match rest with
        | String c1 (String c2 (String c3 rest)) =>
            repr_wide
              (((N.land n 7 * 64 + low6 c1) * 64 + low6 c2) * 64 + low6 c3)%N
              (String c (String c1 (String c2 (String c3 ""))))
              ++ repr_body quote rest
        | _ => escape n
        end
  end.

Fixpoint has_char (c : ascii) (s : string) : bool :=
  match s with
  | EmptyString => false
  | String c' rest => Ascii.eqb c c' || has_char c rest
  end.

(** [repr(s)] for a text [s]. *)
Definition py_repr (s : string) : string :=
  let quote := if has_char apostrophe s && negb (has_char double_quote s)
               then double_quote else apostrophe in
  String quote (repr_body quote s ++ String quote "").
Arguments py_repr : simpl never.

(** [str(e)]. [str(KeyError(k))] is [repr(k)]; for the other exceptions
    it is the message. *)
Definition str_exn (e : exn) : string :=
  match e with
  | KeyError k => py_repr k
  | TypeError m => m
  | AttributeError m => m
  | OtherError _ m => m
  end.

Inductive result (A : Type) : Type :=
| Raise (e : exn)
| Ok (a : A).
Arguments Raise {A} e.
Arguments Ok {A} a.

#[global] Instance result_ret : MRet result := fun A a => Ok a.
#[global] Instance result_bind : MBind result := fun A B f m =>
  match m with
  | Raise e => Raise e
  | Ok a => f a
  end.

Definition is_ok {A} (r : result A) : bool :=
  match r with Ok _ => true | Raise _ => false end.

(** *** Dictionaries *)

Section Dict.
Context {A : Type}.

(** [d.get(k)] as an option. *)
Fixpoint dict_lookup (k : string) (d : list (string * A)) : option A :=
  match d with
  | [] => None
  | (k', v) :: d' => if String.eqb k k' then Some v else dict_lookup k d'
  end.

(** [d[k] = v]: an existing key keeps its position, a new key goes last. *)
Fixpoint dict_set (k : string) (v : A) (d : list (string * A))
  : list (string * A) :=
  match d with
  | [] => [(k, v)]
  | (k', v') :: d' =>
      if String.eqb k k' then (k, v) :: d' else (k', v') :: dict_set k v d'
  end.

Definition dict_keys (d : list (string * A)) : list string := d.*1.

(** [k in d]. *)
Definition dict_mem (k : string) (d : list (string * A)) : bool :=
  match dict_lookup k d with Some _ => true | None => false end.
End Dict.

(** *** Strings *)

(** [sub in s] for two strings. *)
Fixpoint str_in (sub s : string) : bool :=
  String.prefix sub s ||
  match s with
  | EmptyString => false
  | String _ s' => str_in sub s'
  end.

(** [str.lower] on ASCII text, used to run the model on examples.  The
    definitions below take [lower] as a parameter, so that what is proved
    of them holds for Python's own [str.lower]. *)
Definition ascii_lower_char (c : ascii) : ascii :=
  let n := nat_of_ascii c in
  if (65 <=? n)%nat && (n <=? 90)%nat then ascii_of_nat (n + 32) else c.

Fixpoint ascii_lower (s : string) : string :=
  match s with
  | EmptyString => EmptyString
  | String c s' => String (ascii_lower_char c) (ascii_lower s')
  end.

Definition chars (s : string) : list value :=
  (fun c => VStr (String c EmptyString)) <$> list_ascii_of_string s.

(** *** Dynamic typing *)

Definition type_name (v : value) : string :=
  match v with
  | VNone => "NoneType"
  | VNum _ => "int"
  | VStr _ => "str"
  | VList _ => "list"
  | VDict _ => "dict"
  end.

(** [a == b]: structural, and insensitive to the order of a dictionary's
    items. *)
Fixpoint py_eq (a b : value) {struct a} : bool :=
  match a, b with
  | VNone, VNone => true
  | VNum x, VNum y => (x =? y)%Z
  | VStr s, VStr t => String.eqb s t
  | VList xs, VList ys =>
      (fix go (xs ys : list value) {struct xs} : bool :=
         match xs, ys with
         | [], [] => true
         | x :: xs', y :: ys' => py_eq x y && go xs' ys'
         | _, _ => false
         end) xs ys
  | VDict d1, VDict d2 =>
      (length d1 =? length d2)%nat &&
      (fix go (d : list (string * value)) {struct d} : bool :=
         match d with
         | [] => true
         | (k, v) :: d' =>
             match dict_lookup k d2 with
             | Some v' => py_eq v v'
             | None => false
             end && go d'
         end) d1
  | _, _ => false
  end.

(** [v[k]] for a string key [k]. *)
Definition py_subscript (v : value) (k : string) : result value :=
  match v with
  | VDict d =>
      match dict_lookup k d with
      | Some x => Ok x
      | None => Raise (KeyError k)
      end
  | VList _ =>
      Raise (TypeError "list indices must be integers or slices, not str")
  | VStr _ => Raise (TypeError "string indices must be integers, not 'str'")
  | _ => Raise (TypeError ("'" ++ type_name v ++ "' object is not subscriptable"))
  end.

(** [v.get(k, default)]: only dictionaries have the method. *)
Definition py_get (v : value) (k : string) (default : value) : result value :=
  match v with
  | VDict d =>
      match dict_lookup k d with
      | Some x => Ok x
      | None => Ok default
      end
  | _ => Raise (AttributeError
                  ("'" ++ type_name v ++ "' object has no attribute 'get'"))
  end.

(** [for x in v]: the elements of a list, the keys of a dictionary, the
    characters of a string. *)
Definition py_iter (v : value) : result (list value) :=
  match v with
  | VList xs => Ok xs
  | VDict d => Ok (VStr <$> dict_keys d)
  | VStr s => Ok (chars s)
  | _ => Raise (TypeError ("'" ++ type_name v ++ "' object is not iterable"))
  end.

(** [x in d] for a string-keyed dictionary [d]: [x] is hashed first, and
    lists and dictionaries cannot be. *)
Definition py_in_dict {A} (x : value) (d : list (string * A)) : result bool :=
  match x with
  | VStr s => Ok (dict_mem s d)
  | VNone | VNum _ => Ok false
  | _ => Raise (TypeError ("unhashable type: '" ++ type_name x ++ "'"))
  end.

(** [x in c]. *)
Definition py_contains (c x : value) : result bool :=
  match c with
  | VList xs => Ok (existsb (py_eq x) xs)
  | VDict d => py_in_dict x d
  | VStr s =>
      match x with
      | VStr sub => Ok (str_in sub s)
      | _ => Raise (TypeError
                      ("'in <string>' requires string as left operand, not "
                         ++ type_name x))
      end
  | _ => Raise (TypeError
                  ("argument of type '" ++ type_name c ++ "' is not iterable"))
  end.

(** [v.lower()]: only strings have the method. *)
Definition py_lower (lower : string -> string) (v : value) : result string :=
  match v with
  | VStr s => Ok (lower s)
  | _ => Raise (AttributeError
                  ("'" ++ type_name v ++ "' object has no attribute 'lower'"))
  end.

End Py.

Export Py.

(** ** [src/utils/reducers.py] *)

Module Reducers.

(** *** The merge as a function on trees *)

(** One comparison of the loop body: when the key is present with a
    dictionary for value and the incoming value is a dictionary too, the
    two are merged by the recursive call; otherwise the incoming value is
    kept as it is. *)
Fixpoint merge_value (old new : value) {struct new} : value :=
  match old, new with
  | VDict dict1, VDict dict2 =>
      VDict
        ((fix loop (merged : dict) (items : dict) {struct items} : dict :=
            match items with
            | [] => merged
            | (key, value) :: rest =>
                loop (dict_set key
                        (match dict_lookup key merged with
                         | Some old' => merge_value old' value
                         | None => value
                         end) merged) rest
            end) dict1 dict2)
  | _, _ => new
  end.

(** The body of [for key, value in dict2.items()]. *)
Definition merge_item (merged : dict) (item : string * value) : dict :=
  let '(key, value) := item in
  dict_set key
    (match dict_lookup key merged with
     | Some old => merge_value old value
     | None => value
     end) merged.

(** [dict_reducer(dict1, dict2)]: [merged] starts as a copy of [dict1] and
    takes the items of [dict2] one by one. *)
Definition dict_reducer (dict1 dict2 : dict) : dict :=
  fold_left merge_item dict2 dict1.

(** Python dictionaries hold every key once. *)
Definition unique_keys (d : dict) : Prop := NoDup (dict_keys d).

Definition is_dict (v : value) : bool :=
  match v with VDict _ => true | _ => false end.

(** *** The merge over a store of dictionary objects

    A dictionary is an object in the store and a value [SRef l]
    refers to it; [merged[key] = ...] overwrites the object [merged]
    where it stands.  Lists are never looked into by the merge and are
    kept as immutable leaves. *)
Module Store.

Abbreviation loc := nat.

Inductive sval : Type :=
| SNone
| SNum (n : Z)
| SStr (s : string)
| SList (xs : list value)
| SRef (l : loc).

Abbreviation sdict := (list (string * sval)).

(** The store: the object at address [l] is the [l]-th dictionary; a
    new object takes the next address. *)
Abbreviation store := (list (list (string * sval))).

(** [for key, value in dict2.items()] with [merged] the address of the
    copy; [rec] is the recursive call of [dict_reducer]. *)
Fixpoint merge_items (rec : store -> loc -> loc -> option (store * loc))
    (merged : loc) (h : store) (items : sdict) : option store :=
  match items with
  | [] => Some h
  | (key, value) :: rest =>
      m ← h !! merged;
      match dict_lookup key m, value with
      | Some (SRef old), SRef new =>
          (* key in merged, and both values are dictionaries *)
          '(h1, r) ← rec h old new;
          m1 ← h1 !! merged;
          merge_items rec merged (<[merged := dict_set key (SRef r) m1]> h1) rest
      | _, _ =>
          merge_items rec merged (<[merged := dict_set key value m]> h) rest
      end
  end.

(** [dict_reducer(dict1, dict2)] on addresses.  [fuel] bounds the depth
    of the recursion; [None] is a run that needs more, or one that
    follows an address with no object behind it.  The loop runs over the
    items [dict2] has on entry: the only object written is [merged]. *)
Fixpoint dict_reducer (fuel : nat) (h : store) (dict1 dict2 : loc)
  : option (store * loc) :=
  match fuel with
  | O => None
  | S fuel' =>
      items1 ← h !! dict1;
      items2 ← h !! dict2;
      let merged := length h in            (* merged = dict1.copy() *)
      h' ← merge_items (dict_reducer fuel') merged (h ++ [items1])%list items2;
      Some (h', merged)
  end.

(** The tree a store value stands for, reading at most [n] levels of
    dictionaries and only objects whose address satisfies [ok]. *)
Fixpoint read (ok : loc -> bool) (n : nat) (h : store) (v : sval)
  {struct n} : option value :=
  match v with
  | SNone => Some VNone
  | SNum z => Some (VNum z)
  | SStr s => Some (VStr s)
  | SList xs => Some (VList xs)
  | SRef l =>
      match n with
      | O => None
      | S n' =>
          if ok l then
            items ← h !! l;
            VDict <$> mapM (fun kv => pair kv.1 <$> read ok n' h kv.2) items
          else None
      end
  end.

Definition read_items (ok : loc -> bool) (n : nat) (h : store)
    (items : sdict) : option dict :=
  mapM (fun kv => pair kv.1 <$> read ok n h kv.2) items.

Definition everywhere : loc -> bool := fun _ => true.

(** [view n h l]: the dictionary at address [l], as a tree of depth at
    most [n].  It is defined exactly for the well-formed dictionaries:
    no address without an object, no cycle. *)
Definition view (n : nat) (h : store) (l : loc) : option dict :=
  match read everywhere n h (SRef l) with
  | Some (VDict d) => Some d
  | _ => None
  end.

(** The example of the docstring of [dict_reducer], laid out in a
    store: [dict1] at address 1 and [dict2] at address 3. *)
Definition docstring_store : store :=
  [ [("x", SNum 1)];
    [("a", SRef 0); ("b", SNum 2)];
    [("y", SNum 2)];
    [("a", SRef 2); ("c", SNum 3)] ].

(** What the recursive call has to deliver at depth [n]: merging two
    dictionaries that read as the trees [t1] and [t2] returns a new
    object, at the next free address, that reads as the merge of the
    trees, and leaves every object in place. *)
Definition refines (n : nat) : Prop :=
  forall (ok : loc -> bool) (h : store) (dict1 dict2 : loc) (t1 t2 : dict),
    read ok n h (SRef dict1) = Some (VDict t1) ->
    read ok n h (SRef dict2) = Some (VDict t2) ->
    exists h',
      dict_reducer n h dict1 dict2 = Some (h', length h) /\
      length h < length h' /\
      (forall l d, h !! l = Some d -> h' !! l = Some d) /\
      read (fun l => ok l || (length h <=? l)%nat) n h' (SRef (length h))
        = Some (VDict (Reducers.dict_reducer t1 t2)).

End Store.

End Reducers.

(** ** [src/utils/context.py] *)

Module ContextUtils.

(** The dictionary [parse_coordinator_response] returns, with its four
    fixed keys. *)
Record analysis : Type := {
  required_agents : list string;
  priority : list (string * Z);
  concurrent_groups : list (list string);
  reasoning : value
}.

Section Parse.
(** Python's [str.lower]. *)
Variable lower : string -> string.

(** The safe default configuration the function starts from. *)
Definition default_analysis (response : value) : analysis :=
  {| required_agents := ["PLANNER"];
     priority := [("PLANNER", 1%Z)];
     concurrent_groups := [["PLANNER"]];
     reasoning := response |}.

(** [token in response or word in response.lower()]. *)
Definition mentions (response : value) (token word : string) : result bool :=
  found ← py_contains response (VStr token);
  if found : bool then Ok true
  else text ← py_lower lower response; Ok (str_in word text).

Definition add_notewriter (a : analysis) : analysis :=
  {| required_agents := (required_agents a ++ ["NOTEWRITER"])%list;
     priority := dict_set "NOTEWRITER" 2%Z (priority a);
     concurrent_groups := [["PLANNER"; "NOTEWRITER"]];
     reasoning := reasoning a |}.

Definition add_advisor (a : analysis) : analysis :=
  {| required_agents := (required_agents a ++ ["ADVISOR"])%list;
     priority := dict_set "ADVISOR" 3%Z (priority a);
     concurrent_groups := concurrent_groups a;
     reasoning := reasoning a |}.

(** The body of the [try] block. *)
Definition parse_body (response : value) : result analysis :=
  let analysis := default_analysis response in
  thought ← py_contains response (VStr "Thought:");
  react ← (if thought : bool then py_contains response (VStr "Decision:")
           else Ok false);
  if react : bool then
    notewriter ← mentions response "NOTEWRITER" "note";
    let analysis := if notewriter : bool then add_notewriter analysis
                    else analysis in
    advisor ← mentions response "ADVISOR" "guidance";
    let analysis := if advisor : bool then add_advisor analysis
                    else analysis in
    Ok analysis
  else Ok analysis.

(** The dictionary returned by the [except] branch. *)
Definition fallback_analysis : analysis :=
  {| required_agents := ["PLANNER"];
     priority := [("PLANNER", 1%Z)];
     concurrent_groups := [["PLANNER"]];
     reasoning := VStr "Fallback due to parse error" |}.

Definition parse_coordinator_response (response : value) : analysis :=
  match parse_body response with
  | Ok analysis => analysis
  | Raise _ => fallback_analysis
  end.
End Parse.

(** The analysis as the Python dictionary it is. *)
Definition analysis_value (a : analysis) : value :=
  VDict [("required_agents", VList (VStr <$> required_agents a));
         ("priority", VDict (prod_map id VNum <$> priority a));
         ("concurrent_groups",
           VList ((fun g => VList (VStr <$> g)) <$> concurrent_groups a));
         ("reasoning", reasoning a)].

End ContextUtils.

(** ** [src/agents/planner.py], [notewriter.py], [advisor.py] *)

Module Agents.

(** [self.workflow.ainvoke(state)], the compiled step sequence of a worker
    with the language model behind it: the outcome of its [n]-th run in
    the process, either the final state or the exception a step raised. *)
Definition workflow : Type := nat -> value -> result dict.

(** [PlannerAgent.__call__] *)
Definition PlannerAgent_call (wf : workflow) (n : nat) (state : value)
  : result value :=
  match
    final_state ← wf n state;
    results ← py_subscript (VDict final_state) "results";
    final_plan ← py_get results "final_plan" (VDict []);
    plan ← py_get final_plan "plan" (VStr "No plan generated.");
    Ok (VDict [("plan", plan)])
  with
  | Ok payload => Ok payload
  | Raise e =>
      Ok (VDict [("plan", VStr ("Error generating plan: " ++ str_exn e))])
  end.

(** [NoteWriterAgent.__call__] *)
Definition NoteWriterAgent_call (wf : workflow) (n : nat) (state : value)
  : result value :=
  match
    final_state ← wf n state;
    results ← py_subscript (VDict final_state) "results";
    generated_notes ← py_get results "generated_notes" (VDict []);
    notes ← py_get generated_notes "notes" (VStr "No notes generated.");
    Ok (VDict [("notes", notes)])
  with
  | Ok payload => Ok payload
  | Raise e =>
      Ok (VDict [("notes", VStr ("Error generating notes: " ++ str_exn e))])
  end.

(** [AdvisorAgent.__call__] *)
Definition AdvisorAgent_call (wf : workflow) (n : nat) (state : value)
  : result value :=
  match
    final_state ← wf n state;
    results ← py_subscript (VDict final_state) "results";
    guidance ← py_get results "guidance" (VDict []);
    advice ← py_get guidance "advice" (VStr "No guidance generated.");
    Ok (VDict [("advice", advice)])
  with
  | Ok payload => Ok payload
  | Raise e =>
      Ok (VDict [("advice", VStr ("Error generating guidance: " ++ str_exn e))])
  end.

(** The three worker variants. *)
Inductive variant : Type := Planner | NoteWriter | Advisor.

Definition agent_id (w : variant) : string :=
  match w with
  | Planner => "PLANNER"
  | NoteWriter => "NOTEWRITER"
  | Advisor => "ADVISOR"
  end.

Definition agent_call (w : variant) : workflow -> nat -> value -> result value :=
  match w with
  | Planner => PlannerAgent_call
  | NoteWriter => NoteWriterAgent_call
  | Advisor => AdvisorAgent_call
  end.

(** The key of the payload of each variant and the text that introduces
    its error message. *)
Definition payload_key (w : variant) : string :=
  match w with
  | Planner => "plan"
  | NoteWriter => "notes"
  | Advisor => "advice"
  end.

Definition error_prefix (w : variant) : string :=
  match w with
  | Planner => "Error generating plan: "
  | NoteWriter => "Error generating notes: "
  | Advisor => "Error generating guidance: "
  end.

(** A step sequence whose backend is down: every run raises. *)
Definition failing_workflow : workflow :=
  fun _ _ => Raise (OtherError "RuntimeError" "backend unavailable").

End Agents.

(** ** [src/executor/agent_executor.py] *)

Module Executor.

(** An agent as the executor sees it: a callable on the state.  The first
    argument numbers the invocations made in the process, so that two
    runs of one agent on one state need not agree. *)
Definition agent : Type := nat -> value -> result value.

(** [self.agents] *)
Definition agents_table : Type := list (string * agent).

(** [AgentExecutor.__init__]: one instance of each worker. *)
Definition AgentExecutor_init (planner notewriter advisor : Agents.workflow)
  : agents_table :=
  [("PLANNER", Agents.PlannerAgent_call planner);
   ("NOTEWRITER", Agents.NoteWriterAgent_call notewriter);
   ("ADVISOR", Agents.AdvisorAgent_call advisor)].

(** The value [execute] returns: [{"results": {"agent_outputs": results}}]. *)
Definition outputs (results : dict) : value :=
  VDict [("results", VDict [("agent_outputs", VDict results)])].

Definition emergency_payload : value :=
  VDict [("results", VDict [("agent_outputs", VDict [("planner", VDict
    [("plan", VStr "Emergency fallback plan: Please try again or contact support.")])])])].

Section Execute.
Variable lower : string -> string.
Variable agents : agents_table.

(** [agent_name in self.agents], and [self.agents[agent_name]] when it
    is. *)
Definition find_agent (agent_name : value) : result (option agent) :=
  known ← py_in_dict agent_name agents;
  if known : bool then
    match agent_name with
    | VStr s => Ok (dict_lookup s agents)
    | _ => Ok None
    end
  else Ok None.

(** The inner loop that fills [tasks]: one entry per name of the group
    that is required and has an implementation. *)
Fixpoint select_tasks (required_agents : value) (group : list value)
  : result (list agent) :=
  match group with
  | [] => Ok []
  | agent_name :: rest =>
      required ← py_contains required_agents agent_name;
      found ← (if required : bool then find_agent agent_name else Ok None);
      tasks ← select_tasks required_agents rest;
      Ok (match found with
          | Some a => a :: tasks
          | None => tasks
          end)
  end.

(** [asyncio.gather] with [return_exceptions=True]: every task runs,
    and the outcomes come back in the order of [tasks]. *)
Fixpoint gather (tasks : list agent) (state : value) (n : nat)
  : list (result value) :=
  match tasks with
  | [] => []
  | task :: rest => task n state :: gather rest state (S n)
  end.

(** [for agent_name, result in zip(group, group_results)] *)
Fixpoint collect (pairs : list (value * result value)) (results : dict)
  : result dict :=
  match pairs with
  | [] => Ok results
  | (agent_name, outcome) :: rest =>
      match outcome with
      | Raise _ => collect rest results
      | Ok payload =>
          key ← py_lower lower agent_name;
          collect rest (dict_set key payload results)
      end
  end.

(** [for group in concurrent_groups] *)
Fixpoint run_groups (required_agents state : value) (groups : list value)
    (results : dict) (n : nat) : result (dict * nat) :=
  match groups with
  | [] => Ok (results, n)
  | group :: rest =>
      names ← py_iter group;
      tasks ← select_tasks required_agents names;
      match tasks with
      | [] => run_groups required_agents state rest results n
      | _ :: _ =>
          let group_results := gather tasks state n in
          results' ← collect (zip names group_results) results;
          run_groups required_agents state rest results' (n + length tasks)
      end
  end.

(** [if not results and "PLANNER" in self.agents] *)
Definition fallback (state : value) (results : dict) (n : nat)
  : result dict :=
  match results, dict_lookup "PLANNER" agents with
  | [], Some planner =>
      planner_result ← planner n state;
      Ok (dict_set "planner" planner_result results)
  | _, _ => Ok results
  end.

(** The first statements of the [try] block: [required_agents] and
    [concurrent_groups] as the state holds them. *)
Definition read_plan (state : value) : result (value * value) :=
  state_results ← py_subscript state "results";
  analysis ← py_get state_results "coordinator_analysis" (VDict []);
  required_agents ← py_get analysis "required_agents" (VList [VStr "PLANNER"]);
  concurrent_groups ← py_get analysis "concurrent_groups" (VList []);
  Ok (required_agents, concurrent_groups).

(** The body of the [try] block of [execute]. *)
Definition execute_body (state : value) (n : nat) : result value :=
  '(required_agents, concurrent_groups) ← read_plan state;
  groups ← py_iter concurrent_groups;
  '(results, n') ← run_groups required_agents state groups [] n;
  results ← fallback state results n';
  Ok (outputs results).

(** [AgentExecutor.execute] *)
Definition execute (state : value) (n : nat) : result value :=
  match execute_body state n with
  | Ok output => Ok output
  | Raise _ => Ok emergency_payload
  end.

(** Every task of every group fails: each group launches the tasks
    [select_tasks] picks for it, and every one of them raises.  The two
    numbers count the invocations before and after the groups. *)
Inductive all_tasks_fail (required_agents state : value)
  : list value -> nat -> nat -> Prop :=
| no_group_left n : all_tasks_fail required_agents state [] n n
| group_fails group rest names tasks n n' :
    py_iter group = Ok names ->
    select_tasks required_agents names = Ok tasks ->
    Forall (fun outcome => is_ok outcome = false) (gather tasks state n) ->
    all_tasks_fail required_agents state rest (n + length tasks) n' ->
    all_tasks_fail required_agents state (group :: rest) n n'.
End Execute.

(** [output["results"]["agent_outputs"]] *)
Definition agent_outputs (output : value) : option dict :=
  match output with
  | VDict d =>
      match dict_lookup "results" d with
      | Some (VDict r) =>
          match dict_lookup "agent_outputs" r with
          | Some (VDict o) => Some o
          | _ => None
          end
      | _ => None
      end
  | _ => None
  end.

(** A task that raises, whatever the state. *)
Definition failing_agent : agent :=
  fun _ _ => Raise (OtherError "RuntimeError" "task failed").

(** A state whose coordinator analysis holds the given plan. *)
Definition plan_state (required : list string) (groups : list (list string))
  : value :=
  VDict [("results", VDict [("coordinator_analysis", VDict
    [("required_agents", VList (VStr <$> required));
     ("concurrent_groups", VList ((fun g => VList (VStr <$> g)) <$> groups))])])].

End Executor.

(** ** Well-formed maps, for the algebra of the merge *)

Module WellFormed.

(** [well_formed n v]: every dictionary inside [v] holds each key once and
    [v] nests dictionaries at most [n] deep.  A list is a leaf for the
    merge, which never looks into it. *)
Fixpoint well_formed (n : nat) (v : value) {struct n} : Prop :=
  match v with
  | VDict d =>
      match n with
      | O => False
      | S n' => Reducers.unique_keys d /\ Forall (fun kv => well_formed n' kv.2) d
      end
  | _ => True
  end.

End WellFormed.

(** ** What each worker reads from the final state of its step sequence *)

Module Workers.

(** The key of [final_state["results"]] a worker reads. *)
Definition result_key (w : Agents.variant) : string :=
  match w with
  | Agents.Planner => "final_plan"
  | Agents.NoteWriter => "generated_notes"
  | Agents.Advisor => "guidance"
  end.

(** The text a worker returns when that key, or the text under it, is
    missing. *)
Definition default_text (w : Agents.variant) : string :=
  match w with
  | Agents.Planner => "No plan generated."
  | Agents.NoteWriter => "No notes generated."
  | Agents.Advisor => "No guidance generated."
  end.

End Workers.

(** ** [src/graph.py] *)

Module Graph.

(** [route_to_parallel_agents], the router nested in [create_agents_graph].
    It has no [try]: what its lookups raise, it raises. *)
Definition route_to_parallel_agents (state : value) : result (list string) :=
  state_results ← py_subscript state "results";
  analysis ← py_get state_results "coordinator_analysis" (VDict []);
  required_agents ← py_get analysis "required_agents" (VList []);
  let next_nodes : list string := [] in
  planner ← py_contains required_agents (VStr "PLANNER");
  let next_nodes := if planner : bool
                    then (next_nodes ++ ["calendar_analyzer"])%list
                    else next_nodes in
  notewriter ← py_contains required_agents (VStr "NOTEWRITER");
  let next_nodes := if notewriter : bool
                    then (next_nodes ++ ["notewriter_analyze"])%list
                    else next_nodes in
  advisor ← py_contains required_agents (VStr "ADVISOR");
  let next_nodes := if advisor : bool
                    then (next_nodes ++ ["advisor_analyze"])%list
                    else next_nodes in
  Ok (match next_nodes with
      | [] => ["calendar_analyzer"]
      | _ :: _ => next_nodes
      end).

(** The entry nodes the conditional edge of the graph declares, in the
    order the router tests them. *)
Definition entry_nodes : list string :=
  ["calendar_analyzer"; "notewriter_analyze"; "advisor_analyze"].

End Graph.

(** ** [src/utils/data_manager.py] *)

Module DataManager.

(** [bool(v)]: [None], zero and the empty string, list and dictionary are
    false. *)
Definition truthy (v : value) : bool :=
  match v with
  | VNone => false
  | VNum n => negb (n =? 0)%Z
  | VStr s => negb (String.eqb s "")
  | VList xs => match xs with [] => false | _ :: _ => true end
  | VDict d => match d with [] => false | _ :: _ => true end
  end.

(** [next((p for p in profiles if p["id"] == student_id), None)]: the
    generator is consumed up to the first match only. *)
Fixpoint first_profile (student_id : string) (profiles : list value)
  : result value :=
  match profiles with
  | [] => Ok VNone
  | p :: rest =>
      id ← py_subscript p "id";
      if py_eq id (VStr student_id) then Ok p
      else first_profile student_id rest
  end.

(** A profile that has an id, and another one than the id looked for. *)
Definition other_student (student_id : string) (p : value) : Prop :=
  exists id, py_subscript p "id" = Ok id /\ py_eq id (VStr student_id) = false.

(** [DataManager.get_student_profile], on the value of
    [self.profile_data]. *)
Definition get_student_profile (profile_data : value) (student_id : string)
  : result value :=
  if truthy profile_data then
    profiles ← py_subscript profile_data "profiles";
    profiles ← py_iter profiles;
    first_profile student_id profiles
  else Ok VNone.

End DataManager.

(** ** [analyze_context] of [src/utils/context.py] and
       [src/agents/coordinator.py] *)

Module Coordinator.

(** A message of the conversation: a [HumanMessage] or another
    [BaseMessage], with a text for content.  [state["messages"]] is the
    one entry of the state that holds objects rather than JSON values; the
    functions below take it as an argument of its own. *)
Record message : Type := {
  is_human : bool;
  content : string
}.

(** [messages[-1]] *)
Definition last_message (messages : list message) : result message :=
  match last messages with
  | Some m => Ok m
  | None => Raise (OtherError "IndexError" "list index out of range")
  end.

(** The number of characters of a text: the bytes of its UTF-8 encoding
    that do not continue a character. *)
Definition is_continuation (c : ascii) : bool :=
  let n := nat_of_ascii c in (128 <=? n)%nat && (n <? 192)%nat.

Fixpoint utf8_length (s : string) : nat :=
  match s with
  | EmptyString => 0
  | String c s' => (if is_continuation c then 0 else 1) + utf8_length s'
  end.

(** [len(v)] *)
Definition py_len (v : value) : result Z :=
  match v with
  | VList xs => Ok (Z.of_nat (length xs))
  | VDict d => Ok (Z.of_nat (length d))
  | VStr s => Ok (Z.of_nat (utf8_length s))
  | _ => Raise (TypeError
                  ("object of type '" ++ type_name v ++ "' has no len()"))
  end.

Section Analyze.
Variable lower : string -> string.

(** The loop of [analyze_context] over the student's courses: the first
    course whose name, lowercased, occurs in the request. *)
Fixpoint find_course (request : string) (courses : list value) : result value :=
  match courses with
  | [] => Ok VNone
  | course :: rest =>
      name ← py_subscript course "name";
      name ← py_lower lower name;
      if str_in name request then Ok course
      else find_course request rest
  end.

(** A course that has a text for name, which the request does not
    contain. *)
Definition other_course (request : string) (course : value) : Prop :=
  exists name, py_subscript course "name" = Ok (VStr name) /\
               str_in (lower name) request = false.

(** [analyze_context] *)
Definition analyze_context (messages : list message) (state : value)
  : result value :=
  profile ← py_get state "profile" (VDict []);
  calendar ← py_get state "calendar" (VDict []);
  tasks ← py_get state "tasks" (VDict []);
  academic_info ← py_get profile "academic_info" (VDict []);
  courses ← py_get academic_info "current_courses" (VList []);
  latest ← last_message messages;
  let request := lower (content latest) in
  courses ← py_iter courses;
  current_course ← find_course request courses;
  personal_info ← py_get profile "personal_info" (VDict []);
  major ← py_get personal_info "major" (VStr "Unknown");
  year ← py_get personal_info "academic_year" VNone;
  learning_preferences ← py_get profile "learning_preferences" (VDict []);
  learning_style ← py_get learning_preferences "learning_style" (VDict []);
  events ← py_get calendar "events" (VList []);
  upcoming_events ← py_len events;
  task_list ← py_get tasks "tasks" (VList []);
  active_tasks ← py_len task_list;
  study_patterns ← py_get learning_preferences "study_patterns" (VDict []);
  Ok (VDict [("student", VDict [("major", major);
                                ("year", year);
                                ("learning_style", learning_style)]);
             ("course", current_course);
             ("upcoming_events", VNum upcoming_events);
             ("active_tasks", VNum active_tasks);
             ("study_patterns", study_patterns)]).

(** The language model as the coordinator uses it: the prompt is formatted
    from the context and the conversation (the request and the summary of
    the turns before it), and the model answers or raises. *)
Definition backend : Type := value -> list message -> result value.

(** The [coordinator_analysis] the coordinator returns for a parsed
    response. *)
Definition coordinator_analysis (a : ContextUtils.analysis) (response : value)
  : value :=
  VDict [("required_agents", VList (VStr <$> ContextUtils.required_agents a));
         ("priority", VDict (prod_map id VNum <$> ContextUtils.priority a));
         ("concurrent_groups",
           VList ((fun g => VList (VStr <$> g))
                    <$> ContextUtils.concurrent_groups a));
         ("reasoning", response)].

(** The dictionary of the [except] branch of [coordinator_agent]. *)
Definition coordinator_fallback : value :=
  VDict [("results", VDict [("coordinator_analysis", VDict
    [("required_agents", VList [VStr "PLANNER"]);
     ("priority", VDict [("PLANNER", VNum 1)]);
     ("concurrent_groups", VList [VList [VStr "PLANNER"]]);
     ("reasoning", VStr "Error in coordination. Falling back to planner.")])])].

(** [coordinator_agent] *)
Definition coordinator_agent (llm : backend) (messages : list message)
    (state : value) : result value :=
  match
    context ← analyze_context messages state;
    query ← last_message messages;
    response ← llm context messages;
    let analysis := ContextUtils.parse_coordinator_response lower response in
    Ok (VDict [("results", VDict [("coordinator_analysis",
                                   coordinator_analysis analysis response)])])
  with
  | Ok update => Ok update
  | Raise _ => Ok coordinator_fallback
  end.
End Analyze.

End Coordinator.

(** ** [src/llm/gemini_llm.py] *)

Module GeminiLLM.

(** A chat message as the agents build it: a dictionary with a text under
    "role" and a text under "content", either of which may be missing. *)
Record chat_message : Type := {
  role : option string;
  content : option string
}.

Definition newline : string := String (ascii_of_nat 10) EmptyString.

(** [sep.join(parts)] *)
Fixpoint join (sep : string) (parts : list string) : string :=
  match parts with
  | [] => ""
  | [part] => part
  | part :: rest => part ++ sep ++ join sep rest
  end.

(** One turn of the loop of [_convert_messages_to_prompt]. *)
Definition prompt_part (msg : chat_message) : string :=
  let role := default "user" (role msg) in
  let content := default "" (content msg) in
  if String.eqb role "system" then content
  else if String.eqb role "assistant" then "Assistant: " ++ content
  else "User: " ++ content.

(** [GeminiLLM._convert_messages_to_prompt] *)
Definition _convert_messages_to_prompt (messages : list chat_message) : string :=
  join (newline ++ newline) (prompt_part <$> messages).

End GeminiLLM.

(** * Properties *)

(** ** The merge on trees *)

Section DictFacts.
Context {A : Type}.
Implicit Types (d : list (string * A)) (k : string) (v : A).

Lemma dict_lookup_set_eq k v d : dict_lookup k (dict_set k v d) = Some v.
Proof.
  induction d as [|[k' v'] d IH]; simpl.
  - by rewrite String.eqb_refl.
  - destruct (String.eqb k k') eqn:E; simpl;
      by rewrite ?String.eqb_refl, ?E.
Qed.

Lemma dict_lookup_set_ne k k' v d :
  k <> k' -> dict_lookup k' (dict_set k v d) = dict_lookup k' d.
Proof.
  intros Hne.
  assert (String.eqb k' k = false) as Hk by (apply String.eqb_neq; congruence).
  induction d as [|[k0 v0] d IH]; simpl.
  - by rewrite Hk.
  - destruct (String.eqb k k0) eqn:E; simpl.
    + apply String.eqb_eq in E as <-. by rewrite Hk.
    + by rewrite IH.
Qed.

Lemma dict_keys_set k k' v d :
  k' ∈ dict_keys (dict_set k v d) <-> k' = k \/ k' ∈ dict_keys d.
Proof.
  unfold dict_keys. induction d as [|[k0 v0] d IH]; simpl.
  - rewrite list_elem_of_singleton, elem_of_nil. tauto.
  - destruct (String.eqb k k0) eqn:E; simpl.
    + apply String.eqb_eq in E as <-. rewrite !elem_of_cons. tauto.
    + rewrite !elem_of_cons, IH. tauto.
Qed.

Lemma dict_lookup_None k d : dict_lookup k d = None <-> k ∉ dict_keys d.
Proof.
  unfold dict_keys. induction d as [|[k0 v0] d IH]; simpl.
  - rewrite elem_of_nil. tauto.
  - rewrite not_elem_of_cons. destruct (String.eqb k k0) eqn:E.
    + apply String.eqb_eq in E as <-. split; [discriminate|tauto].
    + apply String.eqb_neq in E. tauto.
Qed.

Lemma dict_lookup_Some_key k v d : dict_lookup k d = Some v -> k ∈ dict_keys d.
Proof.
  intros H. destruct (decide (k ∈ dict_keys d)) as [|Hn]; [done|].
  apply dict_lookup_None in Hn. congruence.
Qed.

(** A key that is new goes to the end. *)
Lemma dict_set_new k v d :
  dict_lookup k d = None -> dict_set k v d = (d ++ [(k, v)])%list.
Proof.
  induction d as [|[k0 v0] d IH]; simpl; [done|].
  destruct (String.eqb k k0); [discriminate|]. intros H. by rewrite IH.
Qed.
End DictFacts.

Section ReducersFacts.
Import Reducers.
Implicit Types (d merged : dict) (k key : string) (v : value).

(** On two dictionaries [merge_value] is the recursive call. *)
Lemma merge_value_dict (dict1 dict2 : dict) :
  merge_value (VDict dict1) (VDict dict2) = VDict (dict_reducer dict1 dict2).
Proof.
  unfold dict_reducer. simpl. f_equal. revert dict1.
  induction dict2 as [|[key v] rest IH]; intros dict1; simpl; [done|].
  apply IH.
Qed.

Lemma dict_reducer_step (dict1 : dict) (item : string * value) (rest : dict) :
  dict_reducer dict1 (item :: rest) = dict_reducer (merge_item dict1 item) rest.
Proof. reflexivity. Qed.

Lemma merge_value_leaf old new :
  is_dict old && is_dict new = false -> merge_value old new = new.
Proof. by destruct old, new. Qed.

(** The loop of the source, one item at a time. *)
Lemma dict_reducer_cons (dict1 : dict) key v (rest : dict) :
  dict_reducer dict1 ((key, v) :: rest) =
  dict_reducer
    (dict_set key
       (match dict_lookup key dict1, v with
        | Some (VDict old), VDict new => VDict (dict_reducer old new)
        | _, _ => v
        end) dict1) rest.
Proof.
  rewrite dict_reducer_step. unfold merge_item. do 2 f_equal.
  destruct (dict_lookup key dict1) as [old|]; [|by destruct v].
  destruct old, v; try reflexivity. apply merge_value_dict.
Qed.

Lemma dict_reducer_keys (dict1 dict2 : dict) k :
  k ∈ dict_keys (dict_reducer dict1 dict2) <->
  k ∈ dict_keys dict1 \/ k ∈ dict_keys dict2.
Proof.
  revert dict1. induction dict2 as [|[key v] rest IH]; intros dict1.
  - unfold dict_keys at 3. simpl. rewrite elem_of_nil. tauto.
  - rewrite dict_reducer_step, IH. unfold merge_item. rewrite dict_keys_set.
    unfold dict_keys at 4. simpl. rewrite elem_of_cons. tauto.
Qed.

(** A key that [dict2] does not have keeps the value of [dict1]. *)
Lemma dict_reducer_lookup_old (dict1 dict2 : dict) k :
  dict_lookup k dict2 = None ->
  dict_lookup k (dict_reducer dict1 dict2) = dict_lookup k dict1.
Proof.
  revert dict1. induction dict2 as [|[key v] rest IH]; intros dict1; [done|].
  intros H. simpl in H. destruct (String.eqb k key) eqn:E; [discriminate|].
  rewrite dict_reducer_step, (IH _ H). unfold merge_item.
  apply dict_lookup_set_ne.
  apply String.eqb_neq in E. congruence.
Qed.

(** A key of [dict2] holds what the loop body computed for it. *)
Lemma dict_reducer_lookup_new (dict1 dict2 : dict) k v :
  unique_keys dict2 ->
  dict_lookup k dict2 = Some v ->
  dict_lookup k (dict_reducer dict1 dict2) =
    Some (match dict_lookup k dict1 with
          | Some old => merge_value old v
          | None => v
          end).
Proof.
  unfold unique_keys, dict_keys. revert dict1.
  induction dict2 as [|[key v'] rest IH]; intros dict1; [done|].
  rewrite fmap_cons, NoDup_cons. intros [Hkey Hrest] H. simpl in H, Hkey.
  rewrite dict_reducer_step.
  destruct (String.eqb k key) eqn:E.
  - apply String.eqb_eq in E as ->. injection H as ->.
    rewrite dict_reducer_lookup_old by by apply dict_lookup_None.
    unfold merge_item. apply dict_lookup_set_eq.
  - rewrite (IH _ Hrest H). unfold merge_item.
    rewrite dict_lookup_set_ne; [done|].
    apply String.eqb_neq in E. congruence.
Qed.
End ReducersFacts.

(** ** The merge over the store *)

Section StoreFacts.
Import Reducers Reducers.Store.
Implicit Types (h : store) (ok : loc -> bool) (n : nat) (v : sval).
Implicit Types (items m : sdict) (k key : string).

(** [read_items] item by item. *)
Lemma read_items_Forall2 ok n h items (ts : dict) :
  read_items ok n h items = Some ts <->
  Forall2 (fun kv kt => kv.1 = kt.1 /\ read ok n h kv.2 = Some kt.2) items ts.
Proof.
  unfold read_items. split; intros H.
  - apply mapM_Some in H.
    eapply Forall2_impl; [exact H|]. intros [k v] [k' t]; simpl.
    destruct (read ok n h v); simpl; [|done]. by intros [= -> ->].
  - apply mapM_Some.
    eapply Forall2_impl; [exact H|]. intros [k v] [k' t]; simpl.
    by intros [-> ->].
Qed.

(** What was read from a store is read again from any store that holds
    the same objects at the addresses visited. *)
Lemma read_transfer ok ok' h h' n v (t : value) :
  (forall l d, ok l = true -> h !! l = Some d ->
               ok' l = true /\ h' !! l = Some d) ->
  read ok n h v = Some t -> read ok' n h' v = Some t.
Proof.
  intros Hl. revert v t. induction n as [|n IH]; intros [| | | |l] t;
    simpl; try done.
  destruct (ok l) eqn:Hok; [|done].
  destruct (h !! l) as [items|] eqn:Hh; simpl; [|done].
  destruct (Hl _ _ Hok Hh) as [H1 H2]. rewrite H1, H2. simpl.
  fold (read_items ok n h items). fold (read_items ok' n h' items).
  destruct (read_items ok n h items) as [ts|] eqn:E; simpl; [|done].
  intros [= <-]. apply read_items_Forall2 in E.
  rewrite (proj2 (read_items_Forall2 ok' n h' items ts)); [done|].
  eapply Forall2_impl; [exact E|]. intros [k v] [k' t]; simpl.
  intros [-> Hr]. split; [done|]. by apply IH.
Qed.

Lemma read_items_transfer ok ok' h h' n items (ts : dict) :
  (forall l d, ok l = true -> h !! l = Some d ->
               ok' l = true /\ h' !! l = Some d) ->
  read_items ok n h items = Some ts -> read_items ok' n h' items = Some ts.
Proof.
  intros Hl. rewrite !read_items_Forall2. intros H.
  eapply Forall2_impl; [exact H|]. intros [k v] [k' t]; simpl.
  intros [-> Hr]. split; [done|]. by apply (read_transfer ok ok' h h').
Qed.

(** Only a reference reads as a dictionary. *)
Lemma read_is_dict ok n h v (t : value) :
  read ok n h v = Some t ->
  is_dict t = match v with SRef _ => true | _ => false end.
Proof.
  destruct v as [| | | |l], n; simpl; try (by intros [= <-]).
  destruct (ok l); [|done]. destruct (h !! l); simpl; [|done].
  destruct (mapM _ _); simpl; [|done]. by intros [= <-].
Qed.

Lemma read_items_lookup ok n h m (tm : dict) k :
  read_items ok n h m = Some tm ->
  match dict_lookup k m with
  | Some v => exists t, read ok n h v = Some t /\ dict_lookup k tm = Some t
  | None => dict_lookup k tm = None
  end.
Proof.
  rewrite read_items_Forall2.
  induction 1 as [|[k0 v0] [k1 t1] m tm [Hk Hr] _ IH]; simpl in *; [done|].
  subst k1. destruct (String.eqb k k0); [by exists t1|done].
Qed.

Lemma read_items_set ok n h m (tm : dict) k v (t : value) :
  read_items ok n h m = Some tm ->
  read ok n h v = Some t ->
  read_items ok n h (dict_set k v m) = Some (dict_set k t tm).
Proof.
  rewrite !read_items_Forall2. intros H Hv.
  induction H as [|[k0 v0] [k1 t1] m tm [Hk Hr] Hrest IH]; simpl in *.
  - by repeat constructor.
  - subst k1. destruct (String.eqb k k0); by repeat constructor.
Qed.
End StoreFacts.

Section StoreRefinement.
Import Reducers Reducers.Store.
Implicit Types (h : store) (ok : loc -> bool) (n : nat) (v : sval).
Implicit Types (items m : sdict) (k key : string).

(** The two ways through the body of the loop. *)
Lemma merge_items_cons rec (merged : loc) h key v items m :
  h !! merged = Some m ->
  (exists old new,
      dict_lookup key m = Some (SRef old) /\ v = SRef new /\
      merge_items rec merged h ((key, v) :: items) =
        '(h1, r) ← rec h old new;
        m1 ← h1 !! merged;
        merge_items rec merged (<[merged := dict_set key (SRef r) m1]> h1) items)
  \/
  (match dict_lookup key m, v with
   | Some (SRef _), SRef _ => False
   | _, _ => True
   end /\
   merge_items rec merged h ((key, v) :: items) =
     merge_items rec merged (<[merged := dict_set key v m]> h) items).
Proof.
  intros Hm. simpl. rewrite Hm. simpl.
  destruct (dict_lookup key m) as [[| | | |old]|]; destruct v as [| | | |new];
    try (by right); left; by exists old, new.
Qed.

(** Unless both values are dictionaries, the incoming value is kept. *)
Lemma merge_item_leaf ok n h m (tm : dict) key v (tv : value) :
  read_items ok n h m = Some tm ->
  read ok n h v = Some tv ->
  match dict_lookup key m, v with
  | Some (SRef _), SRef _ => False
  | _, _ => True
  end ->
  merge_item tm (key, tv) = dict_set key tv tm.
Proof.
  intros Hm Hv Hleaf. unfold merge_item.
  pose proof (read_items_lookup ok n h m tm key Hm) as Hlk.
  destruct (dict_lookup key m) as [old|]; [|by rewrite Hlk].
  destruct Hlk as (told & Hold & ->).
  rewrite merge_value_leaf; [done|].
  rewrite (read_is_dict _ _ _ _ _ Hold), (read_is_dict _ _ _ _ _ Hv).
  by destruct old, v.
Qed.

(** The loop: if the recursive call is right at depth [n], the object
    [merged] ends up reading as the fold of the loop body over the items.
    [ok] keeps the readings away from [merged], which the loop rewrites. *)
Lemma merge_items_refines n (merged : loc) ok items :
  refines n ->
  ok merged = false ->
  (forall l, merged < l -> ok l = true) ->
  forall h m (tm titems : dict),
    h !! merged = Some m ->
    read_items ok n h m = Some tm ->
    read_items ok n h items = Some titems ->
    exists h' m',
      merge_items (Store.dict_reducer n) merged h items = Some h' /\
      length h <= length h' /\
      (forall l d, l <> merged -> h !! l = Some d -> h' !! l = Some d) /\
      h' !! merged = Some m' /\
      read_items ok n h' m' = Some (fold_left merge_item titems tm).
Proof.
  intros Hrec Hmerged Hfresh.
  induction items as [|[key v] rest IH]; intros h m tm titems Hm Htm Hitems.
  { apply read_items_Forall2 in Hitems. inversion Hitems; subst.
    exists h, m. by repeat split. }
  apply read_items_Forall2 in Hitems.
  inversion Hitems as [|? [key' tv] ? trest [Hkey Hv] Hrest]; subst.
  simpl in Hkey, Hv. subst key'. apply read_items_Forall2 in Hrest.
  pose proof (lookup_lt_Some _ _ _ Hm) as Hlt.
  destruct (merge_items_cons (Store.dict_reducer n) merged h key v rest m Hm)
    as [(old & new & Hold & -> & ->)|[Hleaf ->]].
  - (* both values are dictionaries: the recursive call *)
    pose proof (read_items_lookup ok n h m tm key Htm) as Hlk.
    rewrite Hold in Hlk. destruct Hlk as (told & Hrold & Htold).
    pose proof (read_is_dict _ _ _ _ _ Hrold) as Hd1.
    pose proof (read_is_dict _ _ _ _ _ Hv) as Hd2.
    destruct told as [| | | |ta]; try discriminate.
    destruct tv as [| | | |tb]; try discriminate.
    destruct (Hrec ok h old new ta tb Hrold Hv)
      as (h1 & -> & Hlen1 & Hkeep1 & Hread1).
    cbn [mbind option_bind]. rewrite (Hkeep1 _ _ Hm). cbn [mbind option_bind].
    set (h2 := <[merged := dict_set key (SRef (length h)) m]> h1).
    assert (forall l d, ok l = true -> h !! l = Some d ->
                        ok l = true /\ h2 !! l = Some d) as Hframe.
    { intros l d Hl Hd. split; [done|]. unfold h2.
      rewrite list_lookup_insert_ne by congruence. by apply Hkeep1. }
    destruct (IH h2 (dict_set key (SRef (length h)) m)
                (dict_set key (VDict (Reducers.dict_reducer ta tb)) tm) trest)
      as (h' & m' & Hrun & Hlen & Hkeep & Hm' & Hread).
    + unfold h2. apply list_lookup_insert_eq. lia.
    + apply read_items_set.
      * by apply (read_items_transfer ok ok h h2).
      * eapply read_transfer; [|exact Hread1]. intros l d Hl Hd.
        assert (ok l = true) as Hokl.
        { simpl in Hl. apply orb_true_iff in Hl as [Hl|Hl]; [done|].
          apply Nat.leb_le in Hl. apply Hfresh. lia. }
        split; [done|]. unfold h2.
        rewrite list_lookup_insert_ne by congruence. done.
    + by apply (read_items_transfer ok ok h h2).
    + exists h', m'. split; [done|]. split; [|split; [|split]].
      * unfold h2 in Hlen. rewrite length_insert in Hlen. lia.
      * intros l d Hne Hd. apply Hkeep; [done|]. unfold h2.
        rewrite list_lookup_insert_ne by done. by apply Hkeep1.
      * done.
      * assert (merge_item tm (key, VDict tb) =
                dict_set key (VDict (Reducers.dict_reducer ta tb)) tm) as Heq.
        { unfold merge_item. by rewrite Htold, merge_value_dict. }
        rewrite Hread. cbn [fold_left]. by rewrite Heq.
  - (* otherwise the incoming value replaces the old one *)
    set (h2 := <[merged := dict_set key v m]> h).
    assert (forall l d, ok l = true -> h !! l = Some d ->
                        ok l = true /\ h2 !! l = Some d) as Hframe.
    { intros l d Hl Hd. split; [done|]. unfold h2.
      by rewrite list_lookup_insert_ne by congruence. }
    destruct (IH h2 (dict_set key v m) (dict_set key tv tm) trest)
      as (h' & m' & Hrun & Hlen & Hkeep & Hm' & Hread).
    + unfold h2. by apply list_lookup_insert_eq.
    + apply read_items_set.
      * by apply (read_items_transfer ok ok h h2).
      * by apply (read_transfer ok ok h h2).
    + by apply (read_items_transfer ok ok h h2).
    + exists h', m'. split; [done|]. split; [|split; [|split]].
      * unfold h2 in Hlen. by rewrite length_insert in Hlen.
      * intros l d Hne Hd. apply Hkeep; [done|]. unfold h2.
        by rewrite list_lookup_insert_ne by done.
      * done.
      * rewrite Hread. cbn [fold_left].
        by rewrite (merge_item_leaf ok n h m tm key v tv Htm Hv Hleaf).
Qed.

(** The merge over the store computes the merge of the trees. *)
Lemma dict_reducer_refines n : refines n.
Proof.
  induction n as [|n IH]; intros ok h dict1 dict2 t1 t2; [done|].
  simpl. destruct (ok dict1) eqn:Hok1; [|done].
  destruct (h !! dict1) as [items1|] eqn:H1; simpl; [|done].
  destruct (ok dict2) eqn:Hok2; [|done].
  destruct (h !! dict2) as [items2|] eqn:H2; simpl; [|done].
  fold (read_items ok n h items1). fold (read_items ok n h items2).
  destruct (read_items ok n h items1) as [t1'|] eqn:Hr1; simpl; [|done].
  destruct (read_items ok n h items2) as [t2'|] eqn:Hr2; simpl; [|done].
  intros [= ->] [= ->].
  set (merged := length h).
  set (ok' := fun l => ok l && (l <? merged)%nat || (merged <? l)%nat).
  assert (forall l d, ok l = true -> h !! l = Some d ->
            ok' l = true /\ (h ++ [items1])%list !! l = Some d) as Hframe.
  { intros l d Hl Hd. pose proof (lookup_lt_Some _ _ _ Hd) as Hlt.
    split; [|by apply lookup_app_l_Some].
    unfold ok', merged. rewrite Hl. apply Nat.ltb_lt in Hlt. by rewrite Hlt. }
  destruct (merge_items_refines n merged ok' items2 IH) with
    (h := (h ++ [items1])%list) (m := items1) (tm := t1) (titems := t2)
    as (h' & m' & Hrun & Hlen & Hkeep & Hm' & Hread).
  - unfold ok'. rewrite Nat.ltb_irrefl. by rewrite andb_false_r.
  - intros l Hl. unfold ok'. apply Nat.ltb_lt in Hl. rewrite Hl.
    by rewrite orb_true_r.
  - apply list_lookup_middle. done.
  - by apply (read_items_transfer ok ok' h).
  - by apply (read_items_transfer ok ok' h).
  - exists h'. rewrite Hrun. simpl. split; [done|].
    rewrite length_app in Hlen. simpl in Hlen. split; [fold merged; lia|].
    split.
    + intros l d Hd. apply Hkeep.
      * apply lookup_lt_Some in Hd. fold merged in Hd. lia.
      * by apply lookup_app_l_Some.
    + fold merged. rewrite Nat.leb_refl, orb_true_r, Hm'. simpl.
      fold (read_items (fun l => ok l || (merged <=? l)%nat) n h' m').
      erewrite read_items_transfer; [done| |exact Hread].
      intros l d Hl Hd. split; [|done]. unfold ok' in Hl.
      destruct (ok l); [done|]. simpl in *.
      apply Nat.ltb_lt in Hl. apply Nat.leb_le. lia.
Qed.
End StoreRefinement.

Section StoreDisjoint.
Import Reducers Reducers.Store.
Implicit Types (h : store) (items m : sdict) (k key : string).

(** Items whose keys are all new are appended to [merged], and nothing
    else is written. *)
Lemma merge_items_new_keys rec (merged : loc) items : forall h m,
  h !! merged = Some m ->
  NoDup (dict_keys items) ->
  (forall k, k ∈ dict_keys items -> k ∉ dict_keys m) ->
  merge_items rec merged h items = Some (<[merged := (m ++ items)%list]> h).
Proof.
  induction items as [|[key v] rest IH]; intros h m Hm Hnodup Hnew.
  - simpl. rewrite app_nil_r. by rewrite list_insert_id.
  - unfold dict_keys in Hnodup. rewrite fmap_cons, NoDup_cons in Hnodup.
    destruct Hnodup as [Hkey Hrest]. simpl in Hkey.
    assert (dict_lookup key m = None) as Hnone.
    { apply dict_lookup_None, Hnew. unfold dict_keys. simpl.
      apply list_elem_of_here. }
    simpl. rewrite Hm. simpl. rewrite Hnone.
    rewrite (dict_set_new _ _ _ Hnone).
    rewrite (IH _ (m ++ [(key, v)])%list).
    + by rewrite list_insert_insert_eq, <- app_assoc.
    + apply list_lookup_insert_eq. by apply lookup_lt_Some in Hm.
    + done.
    + intros k Hk. unfold dict_keys. rewrite fmap_app, elem_of_app. simpl.
      rewrite list_elem_of_singleton. intros [Hin| ->].
      * apply (Hnew k); [|done]. unfold dict_keys. simpl.
        by apply list_elem_of_further.
      * done.
Qed.
End StoreDisjoint.

Section ReducersTheorems.
Import Reducers Reducers.Store.

Lemma view_read n (h : store) (l : loc) (d : dict) :
  view n h l = Some d <-> read everywhere n h (SRef l) = Some (VDict d).
Proof.
  unfold view. destruct (read everywhere n h (SRef l)) as [[| | | |d']|];
    split; intros H; try discriminate; by inversion H.
Qed.

(** C1. For every two well-formed maps [old] and [new], the merge returns
    (it never fails); it leaves every object that was in the store as it
    was, its two arguments among them; the map it returns has for keys
    the keys of [old] and those of [new]; a key that both have with a map
    for value on both sides holds the recursive merge of the two; any
    other key of [new] holds the value of [new], as it is. *)
Theorem dict_reducer_merges (n : nat) (h : store) (old new : loc)
    (told tnew : dict) :
  view n h old = Some told ->
  view n h new = Some tnew ->
  unique_keys tnew ->
  exists (h' : store) (merged : loc) (tmerged : dict),
    Store.dict_reducer n h old new = Some (h', merged) /\
    (forall l d, h !! l = Some d -> h' !! l = Some d) /\
    view n h' merged = Some tmerged /\
    tmerged = Reducers.dict_reducer told tnew /\
    (forall k, k ∈ dict_keys tmerged <->
               k ∈ dict_keys told \/ k ∈ dict_keys tnew) /\
    (forall k a b,
        dict_lookup k told = Some (VDict a) ->
        dict_lookup k tnew = Some (VDict b) ->
        dict_lookup k tmerged = Some (VDict (Reducers.dict_reducer a b))) /\
    (forall k v,
        dict_lookup k tnew = Some v ->
        (forall a b, ~ (dict_lookup k told = Some (VDict a) /\ v = VDict b)) ->
        dict_lookup k tmerged = Some v).
Proof.
  intros Hold Hnew Huniq. apply view_read in Hold, Hnew.
  destruct (dict_reducer_refines n everywhere h old new told tnew Hold Hnew)
    as (h' & Hrun & _ & Hkeep & Hread).
  exists h', (length h), (Reducers.dict_reducer told tnew).
  split; [done|]. split; [done|]. split; [|split; [done|split; [|split]]].
  - apply view_read. eapply read_transfer; [|exact Hread]. by intros l d _ Hd.
  - intros k. apply dict_reducer_keys.
  - intros k a b Ha Hb.
    by rewrite (dict_reducer_lookup_new _ _ _ _ Huniq Hb), Ha, merge_value_dict.
  - intros k v Hv Hleaf. rewrite (dict_reducer_lookup_new _ _ _ _ Huniq Hv).
    destruct (dict_lookup k told) as [o|]; [|done].
    rewrite merge_value_leaf; [done|].
    destruct o as [| | | |a], v as [| | | |b]; try done.
    by destruct (Hleaf a b).
Qed.

(** C8. For two maps with disjoint key sets, the merge has for keys the
    keys of both, and every key holds the value of the input that had it,
    unchanged.  Over the store, the merged object is the items of the
    first followed by the items of the second, references included, and
    nothing else is allocated. *)
Theorem dict_reducer_disjoint (a b : dict) :
  unique_keys b ->
  (forall k, k ∈ dict_keys a -> k ∉ dict_keys b) ->
  (forall k, k ∈ dict_keys (Reducers.dict_reducer a b) <->
             k ∈ dict_keys a \/ k ∈ dict_keys b) /\
  (forall k v, dict_lookup k a = Some v ->
               dict_lookup k (Reducers.dict_reducer a b) = Some v) /\
  (forall k v, dict_lookup k b = Some v ->
               dict_lookup k (Reducers.dict_reducer a b) = Some v) /\
  (forall fuel (h : store) (la lb : loc) (sa sb : sdict),
      h !! la = Some sa -> h !! lb = Some sb ->
      dict_keys sa = dict_keys a -> dict_keys sb = dict_keys b ->
      Store.dict_reducer (S fuel) h la lb =
        Some ((h ++ [(sa ++ sb)%list])%list, length h)).
Proof.
  intros Huniq Hdisj. split; [|split; [|split]].
  - intros k. apply dict_reducer_keys.
  - intros k v Hv. rewrite dict_reducer_lookup_old; [done|].
    apply dict_lookup_None, Hdisj. by apply dict_lookup_Some_key in Hv.
  - intros k v Hv. rewrite (dict_reducer_lookup_new _ _ _ _ Huniq Hv).
    assert (dict_lookup k a = None) as ->; [|done].
    apply dict_lookup_None. intros Hin.
    by apply (Hdisj k Hin), (dict_lookup_Some_key k v).
  - intros fuel h la lb sa sb Hla Hlb Hka Hkb. simpl.
    rewrite Hla, Hlb. simpl.
    rewrite (merge_items_new_keys _ (length h) sb (h ++ [sa])%list sa).
    + simpl. do 2 f_equal.
      rewrite insert_app_r_alt by done. by rewrite Nat.sub_diag.
    + by apply list_lookup_middle.
    + unfold unique_keys in Huniq. by rewrite Hkb.
    + intros k Hk Hk'. rewrite Hkb in Hk. rewrite Hka in Hk'.
      by apply (Hdisj k).
Qed.

(** C9. The merge is not associative: with a map, a number and a map
    again under one key, merging from the left replaces the first map,
    merging from the right merges the two maps. *)
Theorem dict_reducer_not_associative :
  exists a b c : dict,
    unique_keys a /\ unique_keys b /\ unique_keys c /\
    Reducers.dict_reducer (Reducers.dict_reducer a b) c
      = [("k", VDict [("y", VNum 2)])] /\
    Reducers.dict_reducer a (Reducers.dict_reducer b c)
      = [("k", VDict [("x", VNum 1); ("y", VNum 2)])] /\
    py_eq (VDict (Reducers.dict_reducer (Reducers.dict_reducer a b) c))
          (VDict (Reducers.dict_reducer a (Reducers.dict_reducer b c)))
      = false /\
    exists (h : store) (la lb lc : loc),
      view 2 h la = Some a /\ view 2 h lb = Some b /\ view 2 h lc = Some c /\
      ('(h1, ab) ← Store.dict_reducer 2 h la lb;
       '(h2, ab_c) ← Store.dict_reducer 2 h1 ab lc;
       view 2 h2 ab_c) = Some [("k", VDict [("y", VNum 2)])] /\
      ('(h1, bc) ← Store.dict_reducer 2 h lb lc;
       '(h2, a_bc) ← Store.dict_reducer 2 h1 la bc;
       view 2 h2 a_bc) = Some [("k", VDict [("x", VNum 1); ("y", VNum 2)])].
Proof.
  exists [("k", VDict [("x", VNum 1)])], [("k", VNum 0)],
         [("k", VDict [("y", VNum 2)])].
  assert (forall v : value, unique_keys [("k", v)]) as Huniq.
  { intros v. unfold unique_keys. simpl. apply NoDup_singleton. }
  repeat (split; [by auto|]).
  exists [ [("x", SNum 1)]; [("k", SRef 0)]; [("k", SNum 0)];
           [("y", SNum 2)]; [("k", SRef 3)] ], 1, 2, 4.
  by repeat split.
Qed.
End ReducersTheorems.

Lemma dict_reducer_merges_witness :
  exists (h' : Reducers.Store.store) (merged : nat),
    Reducers.Store.dict_reducer 2 Reducers.Store.docstring_store 1 3
      = Some (h', merged) /\
    Reducers.Store.view 2 h' merged =
      Some [("a", VDict [("x", VNum 1); ("y", VNum 2)]);
            ("b", VNum 2); ("c", VNum 3)] /\
    Reducers.Store.view 2 h' 1 =
      Some [("a", VDict [("x", VNum 1)]); ("b", VNum 2)].
Proof.
  destruct (dict_reducer_merges 2 Reducers.Store.docstring_store 1 3
              [("a", VDict [("x", VNum 1)]); ("b", VNum 2)]
              [("a", VDict [("y", VNum 2)]); ("c", VNum 3)])
    as (h' & merged & tmerged & Hrun & Hkeep & Hview & -> & _).
  - reflexivity.
  - reflexivity.
  - unfold Reducers.unique_keys. simpl. apply NoDup_cons. split.
    + rewrite list_elem_of_singleton. discriminate.
    + apply NoDup_singleton.
  - exists h', merged. split; [exact Hrun|]. split; [exact Hview|].
    injection Hrun as <- _. reflexivity.
Defined.

Lemma dict_reducer_disjoint_witness :
  Reducers.dict_reducer [("a", VDict [("x", VNum 1)]); ("b", VNum 2)]
    [("c", VDict [("y", VNum 2)]); ("d", VList [VNum 3])]
  = [("a", VDict [("x", VNum 1)]); ("b", VNum 2);
     ("c", VDict [("y", VNum 2)]); ("d", VList [VNum 3])] /\
  dict_lookup "c"
    (Reducers.dict_reducer [("a", VDict [("x", VNum 1)]); ("b", VNum 2)]
       [("c", VDict [("y", VNum 2)]); ("d", VList [VNum 3])])
  = Some (VDict [("y", VNum 2)]).
Proof.
  split; [reflexivity|].
  apply (dict_reducer_disjoint
           [("a", VDict [("x", VNum 1)]); ("b", VNum 2)]
           [("c", VDict [("y", VNum 2)]); ("d", VList [VNum 3])]).
  - unfold Reducers.unique_keys. simpl. apply NoDup_cons. split.
    + rewrite list_elem_of_singleton. discriminate.
    + apply NoDup_singleton.
  - intros k. unfold dict_keys. simpl. rewrite !elem_of_cons, !elem_of_nil.
    intros [->|[->|[]]] [?|[?|[]]]; discriminate.
  - reflexivity.
Defined.

(** ** The coordinator's plan *)

Section ContextFacts.
Import ContextUtils.
Variable lower : string -> string.

(** Every run of the [try] block that returns yields the default plan,
    extended by the NOTEWRITER branch, the ADVISOR branch, or both. *)
Lemma parse_body_shape response a :
  parse_body lower response = Ok a ->
  exists notewriter advisor : bool,
    a = (if advisor then add_advisor else id)
          ((if notewriter then add_notewriter else id)
             (default_analysis response)).
Proof.
  unfold parse_body, mentions.
  destruct (py_contains response (VStr "Thought:")) as [e|[|]];
    simpl; try discriminate.
  - destruct (py_contains response (VStr "Decision:")) as [e|[|]];
      simpl; try discriminate.
    + destruct (py_contains response (VStr "NOTEWRITER")) as [e|[|]];
        simpl; try discriminate.
      * destruct (py_contains response (VStr "ADVISOR")) as [e|[|]];
          simpl; try discriminate.
        -- intros [= <-]. by exists true, true.
        -- destruct (py_lower lower response) as [e|text];
             simpl; try discriminate.
           intros [= <-]. exists true, (str_in "guidance" text).
           by destruct (str_in "guidance" text).
      * destruct (py_lower lower response) as [e|text];
          simpl; try discriminate.
        destruct (py_contains response (VStr "ADVISOR")) as [e|[|]];
          simpl; try discriminate.
        -- intros [= <-]. exists (str_in "note" text), true.
           by destruct (str_in "note" text).
        -- intros [= <-].
           exists (str_in "note" text), (str_in "guidance" text).
           by destruct (str_in "note" text), (str_in "guidance" text).
    + intros [= <-]. by exists false, false.
  - intros [= <-]. by exists false, false.
Qed.

(** The plans [parse_coordinator_response] can return, whatever it is
    given. *)
Lemma parse_coordinator_response_shape response :
  parse_coordinator_response lower response = fallback_analysis \/
  exists notewriter advisor : bool,
    parse_coordinator_response lower response =
      (if advisor then add_advisor else id)
        ((if notewriter then add_notewriter else id)
           (default_analysis response)).
Proof.
  unfold parse_coordinator_response.
  destruct (parse_body lower response) as [e|a] eqn:E; [by left|right].
  by apply parse_body_shape.
Qed.

(** On a text the [try] block never raises. *)
Lemma parse_body_text (s : string) :
  exists a, parse_body lower (VStr s) = Ok a.
Proof.
  unfold parse_body, mentions. simpl.
  destruct (str_in "Thought:" s); simpl; [|by eexists].
  destruct (str_in "Decision:" s); simpl; [|by eexists].
  destruct (str_in "NOTEWRITER" s), (str_in "ADVISOR" s); simpl; by eexists.
Qed.

(** Without the two ReACT markers no branch is taken. *)
Lemma parse_body_unmarked response a :
  ~ (py_contains response (VStr "Thought:") = Ok true /\
     py_contains response (VStr "Decision:") = Ok true) ->
  parse_body lower response = Ok a ->
  a = default_analysis response.
Proof.
  unfold parse_body. intros Hno.
  destruct (py_contains response (VStr "Thought:")) as [e|[|]];
    simpl; try discriminate; [|congruence].
  destruct (py_contains response (VStr "Decision:")) as [e|[|]];
    simpl; try discriminate; [|congruence].
  by destruct Hno.
Qed.

(** With the markers and the token NOTEWRITER in a text, the NOTEWRITER
    branch is taken. *)
Lemma parse_marked_notewriter (s : string) :
  str_in "Thought:" s = true ->
  str_in "Decision:" s = true ->
  str_in "NOTEWRITER" s = true ->
  exists advisor : bool,
    parse_coordinator_response lower (VStr s) =
      (if advisor then add_advisor else id)
        (add_notewriter (default_analysis (VStr s))).
Proof.
  intros H1 H2 H3.
  unfold parse_coordinator_response, parse_body, mentions. simpl.
  rewrite H1, H2, H3. simpl.
  destruct (str_in "ADVISOR" s); simpl.
  - by exists true.
  - exists (str_in "guidance" (lower s)).
    by destruct (str_in "guidance" (lower s)).
Qed.

(** C7. For every response, also one that sends the parser through its
    error fallback, every worker id found in a group of
    [concurrent_groups] is found in [required_agents]. *)
Theorem groups_within_required (response : value) (g : list string)
    (id : string) :
  g ∈ concurrent_groups (parse_coordinator_response lower response) ->
  id ∈ g ->
  id ∈ required_agents (parse_coordinator_response lower response).
Proof.
  destruct (parse_coordinator_response_shape response)
    as [->|([|] & [|] & ->)]; simpl;
    rewrite ?list_elem_of_singleton; intros -> Hid;
    repeat (apply elem_of_cons in Hid as [->|Hid]);
    try (by apply elem_of_nil in Hid); try reflexivity;
    repeat first [by apply list_elem_of_here | apply list_elem_of_further].
Qed.

(** C2, as amended. For every response text that contains the markers
    "Thought:" and "Decision:" and the token "NOTEWRITER", the plan
    requires both PLANNER and NOTEWRITER and has a group that holds the
    two together. *)
Theorem notewriter_joins_planner (s : string) :
  str_in "Thought:" s = true ->
  str_in "Decision:" s = true ->
  str_in "NOTEWRITER" s = true ->
  let plan := parse_coordinator_response lower (VStr s) in
  "PLANNER" ∈ required_agents plan /\
  "NOTEWRITER" ∈ required_agents plan /\
  exists g, g ∈ concurrent_groups plan /\ "PLANNER" ∈ g /\ "NOTEWRITER" ∈ g.
Proof.
  intros H1 H2 H3.
  destruct (parse_marked_notewriter s H1 H2 H3) as [[|] ->]; simpl;
    (split; [|split]);
    try (exists ["PLANNER"; "NOTEWRITER"]; split; [|split]);
    repeat first [by apply list_elem_of_here | apply list_elem_of_further].
Qed.

(** C10. Every plan has exactly one concurrent group, PLANNER is in it,
    ADVISOR is in no group, and unless the response contains both
    "Thought:" and "Decision:" the plan is the baseline plan: PLANNER
    alone, required with priority 1 and in a group of its own (with the
    response itself for reasoning when the response is a text). *)
Theorem single_group_with_planner (response : value) :
  let plan := parse_coordinator_response lower response in
  (exists g, concurrent_groups plan = [g] /\ "PLANNER" ∈ g) /\
  (forall g, g ∈ concurrent_groups plan -> "ADVISOR" ∉ g) /\
  (~ (py_contains response (VStr "Thought:") = Ok true /\
      py_contains response (VStr "Decision:") = Ok true) ->
   required_agents plan = ["PLANNER"] /\
   priority plan = [("PLANNER", 1%Z)] /\
   concurrent_groups plan = [["PLANNER"]] /\
   forall s, response = VStr s -> plan = default_analysis response).
Proof.
  simpl. split; [|split].
  - destruct (parse_coordinator_response_shape response)
      as [->|([|] & [|] & ->)]; simpl; eexists; (split; [reflexivity|]);
      apply list_elem_of_here.
  - intros g.
    destruct (parse_coordinator_response_shape response)
      as [->|([|] & [|] & ->)]; simpl;
      rewrite list_elem_of_singleton; intros -> Hin;
      repeat (apply elem_of_cons in Hin as [Hin|Hin]; [discriminate|]);
      by apply elem_of_nil in Hin.
  - intros Hno. unfold parse_coordinator_response.
    destruct (parse_body lower response) as [e|a] eqn:E.
    + repeat split; try reflexivity.
      intros s ->. destruct (parse_body_text s) as [a Ha]. congruence.
    + apply (parse_body_unmarked _ _ Hno) in E as ->. by repeat split.
Qed.
End ContextFacts.

(** C2 as it stands fails: the response "NOTEWRITER" contains the token,
    yet the plan it yields does not require NOTEWRITER, because the text
    lacks the markers "Thought:" and "Decision:". *)
Lemma notewriter_token_alone :
  str_in "NOTEWRITER" "NOTEWRITER" = true /\
  ("NOTEWRITER" ∉
     ContextUtils.required_agents
       (ContextUtils.parse_coordinator_response ascii_lower (VStr "NOTEWRITER"))) /\
  ContextUtils.concurrent_groups
    (ContextUtils.parse_coordinator_response ascii_lower (VStr "NOTEWRITER"))
  = [["PLANNER"]].
Proof.
  split; [reflexivity|]. split; [|reflexivity].
  vm_compute. intros H. apply list_elem_of_singleton in H. discriminate.
Qed.

Lemma notewriter_joins_planner_witness :
  let s := "Thought: notes are needed. Decision: NOTEWRITER" in
  let plan := ContextUtils.parse_coordinator_response ascii_lower (VStr s) in
  "PLANNER" ∈ ContextUtils.required_agents plan /\
  "NOTEWRITER" ∈ ContextUtils.required_agents plan /\
  exists g, g ∈ ContextUtils.concurrent_groups plan /\
            "PLANNER" ∈ g /\ "NOTEWRITER" ∈ g.
Proof.
  apply (notewriter_joins_planner ascii_lower
           "Thought: notes are needed. Decision: NOTEWRITER");
    vm_compute; reflexivity.
Defined.

Lemma groups_within_required_witness :
  "NOTEWRITER" ∈
    ContextUtils.required_agents
      (ContextUtils.parse_coordinator_response ascii_lower
         (VStr "Thought: t Decision: take a note")).
Proof.
  apply (groups_within_required ascii_lower
           (VStr "Thought: t Decision: take a note")
           ["PLANNER"; "NOTEWRITER"] "NOTEWRITER").
  - vm_compute. apply list_elem_of_here.
  - apply list_elem_of_further, list_elem_of_here.
Defined.

Lemma single_group_with_planner_witness :
  ContextUtils.required_agents
    (ContextUtils.parse_coordinator_response ascii_lower
       (VStr "Decision: NOTEWRITER and ADVISOR")) = ["PLANNER"].
Proof.
  apply (single_group_with_planner ascii_lower
           (VStr "Decision: NOTEWRITER and ADVISOR")).
  vm_compute. intros [H _]. discriminate H.
Defined.

(** ** The workers *)

Section AgentsFacts.
Import Agents.

(** Whatever its step sequence does, a worker returns a payload: a
    dictionary with the single key of its variant. *)
Lemma agent_call_returns (w : variant) (wf : workflow) (n : nat)
    (state : value) :
  exists content, agent_call w wf n state = Ok (VDict [(payload_key w, content)]).
Proof.
  destruct w; simpl;
    [unfold PlannerAgent_call|unfold NoteWriterAgent_call
    |unfold AdvisorAgent_call];
    (destruct (wf n state) as [e|final_state]; simpl; [by eexists|]);
    (destruct (dict_lookup "results" final_state) as [results|];
     simpl; [|by eexists]);
    (destruct (py_get results _ _) as [e|inner]; simpl; [by eexists|]);
    (destruct (py_get inner _ _) as [e|content]; simpl; by eexists).
Qed.

Lemma PlannerAgent_call_returns (wf : workflow) (n : nat) (state : value) :
  exists plan, PlannerAgent_call wf n state = Ok (VDict [("plan", plan)]).
Proof. apply (agent_call_returns Planner). Qed.

(** An exception raised by the step sequence is caught by the worker and
    comes back as text in its payload. *)
Lemma agent_call_catches (w : variant) (wf : workflow) (n : nat)
    (state : value) (e : exn) :
  wf n state = Raise e ->
  agent_call w wf n state =
    Ok (VDict [(payload_key w, VStr (error_prefix w ++ str_exn e))]).
Proof.
  intros H. destruct w; simpl;
    [unfold PlannerAgent_call|unfold NoteWriterAgent_call
    |unfold AdvisorAgent_call]; by rewrite H.
Qed.
End AgentsFacts.

(** ** The executor *)

Section ExecutorFacts.
Import Agents Executor.
Variable lower : string -> string.

(** Outcomes that are all exceptions leave [results] as it was. *)
Lemma collect_failures (names : list value) (outcomes : list (result value))
    (results : dict) :
  Forall (fun outcome => is_ok outcome = false) outcomes ->
  collect lower (zip names outcomes) results = Ok results.
Proof.
  intros H. revert names. induction H as [|[e|payload] outcomes Hx _ IH];
    intros [|name names]; simpl; try done.
Qed.

Lemma run_groups_all_fail (agents : agents_table) (required state : value)
    (groups : list value) (results : dict) (n n' : nat) :
  all_tasks_fail agents required state groups n n' ->
  run_groups lower agents required state groups results n = Ok (results, n').
Proof.
  induction 1 as [|group rest names tasks n n' Hiter Hsel Hfail _ IH];
    simpl; [done|].
  rewrite Hiter. simpl. rewrite Hsel. simpl.
  destruct tasks as [|task tasks]; [by rewrite Nat.add_0_r in IH|].
  rewrite (collect_failures _ _ _ Hfail). simpl. apply IH.
Qed.

(** C5. If every worker task of every concurrent group fails, so that no
    group contributes a result, [agent_outputs] has exactly one entry:
    under "planner", the payload of the one invocation of the planner
    made as a fallback, a dictionary that holds a plan. *)
Theorem fallback_when_all_fail (agents : agents_table) (wf : workflow)
    (state required concurrent_groups : value) (groups : list value)
    (n n' : nat) :
  dict_lookup "PLANNER" agents = Some (PlannerAgent_call wf) ->
  read_plan state = Ok (required, concurrent_groups) ->
  py_iter concurrent_groups = Ok groups ->
  all_tasks_fail agents required state groups n n' ->
  exists plan,
    PlannerAgent_call wf n' state = Ok (VDict [("plan", plan)]) /\
    execute lower agents state n = Ok (outputs [("planner", VDict [("plan", plan)])]).
Proof.
  intros Hplanner Hplan Hiter Hfail.
  destruct (PlannerAgent_call_returns wf n' state) as [plan Hcall].
  exists plan. split; [done|].
  unfold execute, execute_body. rewrite Hplan. simpl. rewrite Hiter. simpl.
  rewrite (run_groups_all_fail _ _ _ _ _ _ _ Hfail). simpl.
  unfold fallback. rewrite Hplanner, Hcall. reflexivity.
Qed.

(** C6. For every state, [execute] returns: it never raises.  An
    exception that escapes the body of its [try] block is replaced by the
    emergency payload, whose only entry is a "try again" plan under
    "planner". *)
Theorem execute_never_raises (agents : agents_table) (state : value)
    (n : nat) :
  (exists output, execute lower agents state n = Ok output) /\
  (forall e, execute_body lower agents state n = Raise e ->
             execute lower agents state n = Ok emergency_payload) /\
  agent_outputs emergency_payload =
    Some [("planner", VDict [("plan",
      VStr "Emergency fallback plan: Please try again or contact support.")])].
Proof.
  unfold execute. repeat split.
  - destruct (execute_body lower agents state n); by eexists.
  - by intros e ->.
Qed.

(** *** A worker whose step sequence raises *)

Section WorkerFailure.
Variable wfs : variant -> workflow.
Variable w : variant.
Variable state : value.
Hypothesis Hfail : forall m, is_ok (wfs w m state) = false.
Hypothesis Hdistinct :
  NoDup (lower <$> dict_keys
           (AgentExecutor_init (wfs Planner) (wfs NoteWriter) (wfs Advisor))).

Abbreviation workers :=
  (AgentExecutor_init (wfs Planner) (wfs NoteWriter) (wfs Advisor)).
Abbreviation error_payload e :=
  (VDict [(payload_key w, VStr (error_prefix w ++ str_exn e))]).
Abbreviation launched required :=
  (fun name => py_contains required (VStr name) = Ok true /\
               dict_mem name workers = true).
Abbreviation worker_of :=
  (fun (name : string) (a : agent) =>
     exists v, name = agent_id v /\ a = agent_call v (wfs v)).

(** No other worker shares the lowercased id of [w]. *)
Lemma distinct_ids (v : variant) :
  lower (agent_id v) = lower (agent_id w) -> v = w.
Proof.
  revert Hdistinct. unfold AgentExecutor_init, dict_keys. simpl.
  rewrite !NoDup_cons, !not_elem_of_cons.
  intros ((H1 & H2 & _) & (H3 & _) & _) Heq.
  destruct v, w; simpl in Heq; congruence.
Qed.

(** A name the table knows is the id of a worker, and the table holds the
    worker under it. *)
Lemma known_worker (name : string) :
  dict_mem name workers = true ->
  exists v, name = agent_id v /\
            dict_lookup name workers = Some (agent_call v (wfs v)).
Proof.
  unfold dict_mem, AgentExecutor_init. cbn [dict_lookup].
  destruct (String.eqb name "PLANNER") eqn:E1;
    [apply String.eqb_eq in E1; by exists Planner|].
  destruct (String.eqb name "NOTEWRITER") eqn:E2;
    [apply String.eqb_eq in E2; by exists NoteWriter|].
  destruct (String.eqb name "ADVISOR") eqn:E3;
    [apply String.eqb_eq in E3; by exists Advisor|done].
Qed.

(** The tasks of a group whose names are all required and known: one per
    name, in the order of the names. *)
Lemma workers_of_group (required : value) (names : list string) :
  Forall (launched required) names ->
  exists tasks,
    select_tasks workers required (VStr <$> names) = Ok tasks /\
    Forall2 worker_of names tasks.
Proof.
  induction 1 as [|name names [Hreq Hknown] _ (tasks & Hsel & Hall)].
  { by exists []. }
  destruct (known_worker name Hknown) as (v & -> & Hlookup).
  exists (agent_call v (wfs v) :: tasks). split.
  - rewrite fmap_cons. cbn [select_tasks]. rewrite Hreq.
    cbn [mbind result_bind]. unfold find_agent, py_in_dict. rewrite Hknown.
    cbn [mbind result_bind]. by rewrite Hlookup, Hsel.
  - constructor; [by exists v|done].
Qed.

(** One group: what is stored under the key of [w] is an error payload of
    [w], and the key is there once the group has named [w]. *)
Lemma collect_caught (names : list string) :
  forall (tasks : list agent) (n : nat) (results : dict),
    Forall2 worker_of names tasks ->
    (forall x, dict_lookup (lower (agent_id w)) results = Some x ->
       exists m e, wfs w m state = Raise e /\ x = error_payload e) ->
    exists results',
      collect lower (zip (VStr <$> names) (gather tasks state n)) results
        = Ok results' /\
      (forall x, dict_lookup (lower (agent_id w)) results' = Some x ->
         exists m e, wfs w m state = Raise e /\ x = error_payload e) /\
      (is_Some (dict_lookup (lower (agent_id w)) results) \/
       agent_id w ∈ names ->
       is_Some (dict_lookup (lower (agent_id w)) results')).
Proof.
  induction names as [|name names IH]; intros tasks n results Hall Hcaught.
  { apply Forall2_nil_inv_l in Hall as ->. exists results.
    split; [done|]. split; [done|]. intros [H|H]; [done|].
    by apply elem_of_nil in H. }
  apply Forall2_cons_inv_l in Hall
    as (task & tasks' & (v & -> & ->) & Hall & ->).
  rewrite fmap_cons. cbn [gather zip zip_with collect].
  destruct (agent_call_returns v (wfs v) n state) as [content Hcall].
  rewrite Hcall. cbn [py_lower mbind result_bind].
  set (results1 := dict_set (lower (agent_id v))
                     (VDict [(payload_key v, content)]) results).
  assert ((forall x, dict_lookup (lower (agent_id w)) results1 = Some x ->
             exists m e, wfs w m state = Raise e /\ x = error_payload e) /\
          (is_Some (dict_lookup (lower (agent_id w)) results) \/
           agent_id w = agent_id v ->
           is_Some (dict_lookup (lower (agent_id w)) results1)))
    as [Hcaught1 Hthere1].
  { unfold results1.
    destruct (String.eqb (lower (agent_id v)) (lower (agent_id w))) eqn:E.
    - apply String.eqb_eq in E. pose proof (distinct_ids v E) as ->.
      rewrite dict_lookup_set_eq. split; [|by eexists].
      intros x [= <-]. specialize (Hfail n).
      destruct (wfs w n state) as [e|final] eqn:Hrun; [|done].
      exists n, e. split; [done|].
      rewrite (agent_call_catches w _ _ _ _ Hrun) in Hcall.
      by injection Hcall as <-.
    - apply String.eqb_neq in E.
      rewrite (dict_lookup_set_ne _ _ _ _ E). split; [done|].
      intros [H|H]; [done|]. by rewrite H in E. }
  destruct (IH tasks' (S n) results1 Hall Hcaught1)
    as (results' & Hrun & Hcaught' & Hthere').
  exists results'. split; [done|]. split; [done|].
  intros [H|H]; apply Hthere'.
  - left. apply Hthere1. by left.
  - apply elem_of_cons in H as [H|H]; [|by right].
    left. apply Hthere1. by right.
Qed.

(** All the groups, one after the other. *)
Lemma run_groups_caught (required : value) (groups : list (list string)) :
  forall (results : dict) (n : nat),
    Forall (Forall (launched required)) groups ->
    (forall x, dict_lookup (lower (agent_id w)) results = Some x ->
       exists m e, wfs w m state = Raise e /\ x = error_payload e) ->
    exists results' n',
      run_groups lower workers required state
        ((fun g => VList (VStr <$> g)) <$> groups) results n
        = Ok (results', n') /\
      (forall x, dict_lookup (lower (agent_id w)) results' = Some x ->
         exists m e, wfs w m state = Raise e /\ x = error_payload e) /\
      (is_Some (dict_lookup (lower (agent_id w)) results) \/
       Exists (fun g => agent_id w ∈ g) groups ->
       is_Some (dict_lookup (lower (agent_id w)) results')).
Proof.
  induction groups as [|group groups IH]; intros results n Hall Hcaught.
  { exists results, n. split; [done|]. split; [done|].
    intros [H|H]; [done|]. by apply Exists_nil in H. }
  apply Forall_cons in Hall as [Hgroup Hall].
  destruct (workers_of_group required group Hgroup) as (tasks & Hsel & Hof).
  rewrite fmap_cons. cbn [run_groups py_iter mbind result_bind].
  rewrite Hsel. cbn [mbind result_bind].
  destruct (collect_caught group tasks n results Hof Hcaught)
    as (results1 & Hrun1 & Hcaught1 & Hthere1).
  destruct tasks as [|task tasks].
  - apply Forall2_nil_inv_r in Hof as ->.
    destruct (IH results n Hall Hcaught) as (results' & n' & Hrun & Hc & Ht).
    exists results', n'. split; [done|]. split; [done|].
    intros [H|H]; apply Ht; [by left|].
    apply Exists_cons in H as [H|H]; [by apply elem_of_nil in H|by right].
  - rewrite Hrun1. cbn [mbind result_bind].
    destruct (IH results1 (n + length (task :: tasks)) Hall Hcaught1)
      as (results' & n' & Hrun & Hc & Ht).
    exists results', n'. split; [done|]. split; [done|].
    intros [H|H]; apply Ht.
    + left. apply Hthere1. by left.
    + apply Exists_cons in H as [H|H]; [|by right].
      left. apply Hthere1. by right.
Qed.
End WorkerFailure.

(** C4, as amended. For every worker variant, an exception raised inside
    the worker's step sequence is caught inside the worker, which returns
    a payload with the text of the error: nothing propagates, and to the
    executor the task has completed.  On every plan whose groups name only
    workers that are required and have an implementation, a worker that
    some group names and whose step sequence raises has its key present in
    [agent_outputs], with such an error payload under it.  The plans the
    parser builds are plans of that kind.  That lowercasing keeps the ids
    of the three workers apart, as [str.lower] does, is a hypothesis on
    [lower]. *)
Theorem worker_failure_becomes_payload (w : variant)
    (wfs : variant -> workflow) (state : value) :
  let agents := AgentExecutor_init (wfs Planner) (wfs NoteWriter) (wfs Advisor) in
  let payload e := VDict [(payload_key w, VStr (error_prefix w ++ str_exn e))] in
  let launched required name :=
    py_contains required (VStr name) = Ok true /\ dict_mem name agents = true in
  (forall n e, wfs w n state = Raise e ->
     agent_call w (wfs w) n state = Ok (payload e)) /\
  (forall (required : value) (groups : list (list string)) (n : nat),
     read_plan state =
       Ok (required, VList ((fun g => VList (VStr <$> g)) <$> groups)) ->
     Forall (Forall (launched required)) groups ->
     NoDup (lower <$> dict_keys agents) ->
     Exists (fun group => agent_id w ∈ group) groups ->
     (forall m, is_ok (wfs w m state) = false) ->
     exists results m e,
       wfs w m state = Raise e /\
       execute lower agents state n = Ok (outputs results) /\
       dict_lookup (lower (agent_id w)) results = Some (payload e)) /\
  (forall response : value,
     let plan := ContextUtils.parse_coordinator_response lower response in
     Forall (Forall (launched
                       (VList (VStr <$> ContextUtils.required_agents plan))))
       (ContextUtils.concurrent_groups plan)).
Proof.
  cbv zeta. split; [|split].
  - intros n e. apply agent_call_catches.
  - intros required groups n Hplan Hlaunched Hdistinct Hnamed Hfail.
    destruct (run_groups_caught wfs w state Hfail Hdistinct required groups [] n
                Hlaunched) as (results & n' & Hrun & Hcaught & Hthere); [done|].
    destruct Hthere as [x Hx]; [by right|].
    destruct (Hcaught x Hx) as (m & e & Hraise & ->).
    exists results, m, e. split; [done|]. split; [|done].
    unfold execute, execute_body. rewrite Hplan.
    cbn [mbind result_bind py_iter]. rewrite Hrun. cbn [mbind result_bind].
    unfold fallback. by destruct results.
  - intros response.
    destruct (parse_coordinator_response_shape lower response)
      as [->|([|] & [|] & ->)]; by repeat constructor.
Qed.
End ExecutorFacts.

(** C3 fails on the code. [execute] pairs the results of a group with the
    names of the group from its first name on, although names that are not
    required or have no implementation launched no task.  With the plan
    required = [TUTOR, PLANNER], groups = [[TUTOR, PLANNER]], where TUTOR
    has no implementation, the planner's payload is stored under "tutor"
    and "planner" is absent; with required = [PLANNER],
    groups = [[NOTEWRITER, PLANNER]] it is stored under "notewriter". *)
Theorem result_filed_under_first_name
    (planner notewriter advisor : Agents.workflow) (n : nat) :
  let agents := Executor.AgentExecutor_init planner notewriter advisor in
  let state1 := Executor.plan_state ["TUTOR"; "PLANNER"] [["TUTOR"; "PLANNER"]] in
  let state2 := Executor.plan_state ["PLANNER"] [["NOTEWRITER"; "PLANNER"]] in
  (exists plan,
     Agents.PlannerAgent_call planner n state1 = Ok (VDict [("plan", plan)]) /\
     Executor.execute ascii_lower agents state1 n =
       Ok (Executor.outputs [("tutor", VDict [("plan", plan)])])) /\
  (exists plan,
     Agents.PlannerAgent_call planner n state2 = Ok (VDict [("plan", plan)]) /\
     Executor.execute ascii_lower agents state2 n =
       Ok (Executor.outputs [("notewriter", VDict [("plan", plan)])])).
Proof.
  simpl. split.
  - destruct (PlannerAgent_call_returns planner n
                (Executor.plan_state ["TUTOR"; "PLANNER"] [["TUTOR"; "PLANNER"]]))
      as [plan H].
    exists plan. split; [done|].
    unfold Executor.execute, Executor.execute_body. simpl. by rewrite H.
  - destruct (PlannerAgent_call_returns planner n
                (Executor.plan_state ["PLANNER"] [["NOTEWRITER"; "PLANNER"]]))
      as [plan H].
    exists plan. split; [done|].
    unfold Executor.execute, Executor.execute_body. simpl. by rewrite H.
Qed.

(** C4 as it stands fails: a planner whose step sequence raises does not
    raise itself, and its key is present in the executor's output. *)
Lemma worker_failure_is_not_raised :
  let wf := Agents.failing_workflow in
  let state := Executor.plan_state ["PLANNER"] [["PLANNER"]] in
  let payload := VDict [("plan", VStr "Error generating plan: backend unavailable")] in
  wf 0 state = Raise (OtherError "RuntimeError" "backend unavailable") /\
  Agents.PlannerAgent_call wf 0 state = Ok payload /\
  (forall e, Agents.PlannerAgent_call wf 0 state <> Raise e) /\
  Executor.execute ascii_lower (Executor.AgentExecutor_init wf wf wf) state 0 =
    Ok (Executor.outputs [("planner", payload)]) /\
  dict_mem "planner" [("planner", payload)] = true.
Proof. repeat split. intros e. discriminate. Qed.

Lemma worker_failure_becomes_payload_witness :
  let response :=
    VStr "Thought: the student asks for notes. Decision: NOTEWRITER" in
  let plan := ContextUtils.parse_coordinator_response ascii_lower response in
  let state :=
    VDict [("results", VDict [("coordinator_analysis",
              Coordinator.coordinator_analysis plan response)])] in
  let wfs (v : Agents.variant) : Agents.workflow :=
    match v with
    | Agents.NoteWriter => Agents.failing_workflow
    | _ => fun _ _ =>
        Ok [("results", VDict [("final_plan", VDict [("plan", VStr "Study plan")])])]
    end in
  let agents :=
    Executor.AgentExecutor_init (wfs Agents.Planner) (wfs Agents.NoteWriter)
      (wfs Agents.Advisor) in
  let payload := VDict [("notes", VStr "Error generating notes: backend unavailable")] in
  Agents.NoteWriterAgent_call Agents.failing_workflow 1 state = Ok payload /\
  Executor.execute ascii_lower agents state 0 =
    Ok (Executor.outputs [("planner", VDict [("plan", VStr "Study plan")]);
                          ("notewriter", payload)]) /\
  exists results m e,
    wfs Agents.NoteWriter m state = Raise e /\
    Executor.execute ascii_lower agents state 0 = Ok (Executor.outputs results) /\
    dict_lookup "notewriter" results =
      Some (VDict [("notes", VStr ("Error generating notes: " ++ str_exn e))]).
Proof.
  intros response plan state wfs agents payload.
  destruct (worker_failure_becomes_payload ascii_lower Agents.NoteWriter wfs state)
    as (Hcall & Hexec & Hplans).
  split; [exact (Hcall 1 _ eq_refl)|]. split; [reflexivity|].
  apply (Hexec (VList (VStr <$> ContextUtils.required_agents plan))
           (ContextUtils.concurrent_groups plan) 0).
  - reflexivity.
  - exact (Hplans response).
  - by apply (bool_decide_unpack _).
  - apply Exists_cons. left. by apply (bool_decide_unpack _).
  - reflexivity.
Defined.

Lemma fallback_when_all_fail_witness :
  let agents := [("PLANNER", Agents.PlannerAgent_call Agents.failing_workflow);
                 ("NOTEWRITER", Executor.failing_agent)] in
  let state := Executor.plan_state ["NOTEWRITER"] [["NOTEWRITER"]] in
  exists plan,
    Agents.PlannerAgent_call Agents.failing_workflow 1 state =
      Ok (VDict [("plan", plan)]) /\
    Executor.execute ascii_lower agents state 0 =
      Ok (Executor.outputs [("planner", VDict [("plan", plan)])]).
Proof.
  apply (fallback_when_all_fail ascii_lower
           [("PLANNER", Agents.PlannerAgent_call Agents.failing_workflow);
            ("NOTEWRITER", Executor.failing_agent)]
           Agents.failing_workflow
           (Executor.plan_state ["NOTEWRITER"] [["NOTEWRITER"]])
           (VList [VStr "NOTEWRITER"]) (VList [VList [VStr "NOTEWRITER"]])
           [VList [VStr "NOTEWRITER"]] 0 1).
  - reflexivity.
  - reflexivity.
  - reflexivity.
  - apply (Executor.group_fails _ _ _ _ _ [VStr "NOTEWRITER"]
             [Executor.failing_agent] 0 1).
    + reflexivity.
    + reflexivity.
    + repeat constructor.
    + apply Executor.no_group_left.
Defined.

Lemma execute_never_raises_witness :
  Executor.execute_body ascii_lower
    (Executor.AgentExecutor_init Agents.failing_workflow Agents.failing_workflow
       Agents.failing_workflow) (VDict []) 0 = Raise (KeyError "results") /\
  Executor.execute ascii_lower
    (Executor.AgentExecutor_init Agents.failing_workflow Agents.failing_workflow
       Agents.failing_workflow) (VDict []) 0 = Ok Executor.emergency_payload.
Proof.
  split; [reflexivity|].
  apply (proj1 (proj2 (execute_never_raises ascii_lower _ (VDict []) 0))
           (KeyError "results")).
  reflexivity.
Defined.

(** * Further properties *)

(** ** The algebra of the merge *)

Section MergeAlgebra.
Import Reducers WellFormed.
Implicit Types (k key : string) (v : value).

Lemma dict_lookup_elem (d : dict) k v :
  unique_keys d -> (k, v) ∈ d -> dict_lookup k d = Some v.
Proof.
  unfold unique_keys, dict_keys.
  induction d as [|[k0 v0] d IH]; simpl; intros Hnodup Hin.
  - by apply elem_of_nil in Hin.
  - apply NoDup_cons in Hnodup as [Hk0 Hd].
    apply elem_of_cons in Hin as [[= -> ->]|Hin].
    + by rewrite String.eqb_refl.
    + destruct (String.eqb k k0) eqn:E; [|by apply IH].
      apply String.eqb_eq in E as ->. destruct Hk0.
      apply list_elem_of_fmap. by exists (k0, v).
Qed.

Lemma dict_lookup_elem_of (d : dict) k v :
  dict_lookup k d = Some v -> (k, v) ∈ d.
Proof.
  induction d as [|[k0 v0] d IH]; simpl; [done|].
  destruct (String.eqb k k0) eqn:E.
  - apply String.eqb_eq in E as ->. intros [= ->]. apply list_elem_of_here.
  - intros H. apply list_elem_of_further. by apply IH.
Qed.

(** Writing the value a key already has changes nothing. *)
Lemma dict_set_same (d : dict) k v :
  dict_lookup k d = Some v -> dict_set k v d = d.
Proof.
  induction d as [|[k0 v0] d IH]; simpl; [done|].
  destruct (String.eqb k k0) eqn:E.
  - apply String.eqb_eq in E as ->. by intros [= ->].
  - intros H. by rewrite IH.
Qed.

Lemma dict_keys_set_list (d : dict) k v :
  dict_keys (dict_set k v d) =
    if dict_mem k d then dict_keys d else (dict_keys d ++ [k])%list.
Proof.
  unfold dict_mem, dict_keys. induction d as [|[k0 v0] d IH]; [done|].
  cbn [dict_set dict_lookup]. destruct (String.eqb k k0) eqn:E.
  - by apply String.eqb_eq in E as ->.
  - rewrite !fmap_cons, IH. by destruct (dict_lookup k d).
Qed.

Lemma dict_set_unique (d : dict) k v :
  unique_keys d -> unique_keys (dict_set k v d).
Proof.
  unfold unique_keys. rewrite dict_keys_set_list. unfold dict_mem.
  destruct (dict_lookup k d) eqn:E; [done|]. intros H.
  apply NoDup_app. split; [done|]. split; [|apply NoDup_singleton].
  intros x Hx. rewrite list_elem_of_singleton. intros ->.
  by apply dict_lookup_None in E.
Qed.

Lemma dict_reducer_unique (a b : dict) :
  unique_keys a -> unique_keys (dict_reducer a b).
Proof.
  revert a. induction b as [|[key v] rest IH]; intros a Ha; [done|].
  rewrite dict_reducer_step. apply IH. unfold merge_item.
  by apply dict_set_unique.
Qed.

(** With no key in common the loop only appends. *)
Lemma dict_reducer_app (a b : dict) :
  unique_keys b ->
  (forall k, k ∈ dict_keys b -> k ∉ dict_keys a) ->
  dict_reducer a b = (a ++ b)%list.
Proof.
  unfold unique_keys, dict_keys. revert a.
  induction b as [|[key v] rest IH]; intros a Hnodup Hnew.
  - by rewrite app_nil_r.
  - rewrite fmap_cons, NoDup_cons in Hnodup. destruct Hnodup as [Hkey Hrest].
    simpl in Hkey. rewrite dict_reducer_step. unfold merge_item.
    assert (dict_lookup key a = None) as Hnone.
    { apply dict_lookup_None, Hnew. apply list_elem_of_here. }
    rewrite Hnone, (dict_set_new _ _ _ Hnone), (IH _ Hrest).
    + by rewrite <- app_assoc.
    + intros k Hk. rewrite fmap_app, elem_of_app. simpl.
      rewrite list_elem_of_singleton. intros [Hin| ->]; [|done].
      apply (Hnew k); [|done]. by apply list_elem_of_further.
Qed.

Lemma dict_reducer_nil_l (b : dict) : unique_keys b -> dict_reducer [] b = b.
Proof.
  intros H. rewrite dict_reducer_app; [done|done|].
  intros k _. unfold dict_keys. simpl. apply not_elem_of_nil.
Qed.

Lemma fold_merge_fixed (m items : dict) :
  (forall item, item ∈ items -> merge_item m item = m) ->
  fold_left merge_item items m = m.
Proof.
  induction items as [|item rest IH]; intros H; [done|].
  simpl. rewrite (H item) by apply list_elem_of_here.
  apply IH. intros item' Hin. apply H. by apply list_elem_of_further.
Qed.

(** Merging the same update a second time changes nothing, and a map
    merged into itself is itself. *)
Lemma dict_reducer_again n (b : dict) :
  well_formed n (VDict b) ->
  (forall a, dict_reducer (dict_reducer a b) b = dict_reducer a b) /\
  dict_reducer b b = b.
Proof.
  revert b. induction n as [|n IH]; intros b; [done|].
  simpl. intros [Huniq Hdeep].
  assert (forall a, dict_reducer (dict_reducer a b) b = dict_reducer a b) as Hagain.
  { intros a. unfold dict_reducer at 1. apply fold_merge_fixed.
    fold (dict_reducer a b). intros [k v] Hin.
    pose proof (dict_lookup_elem _ _ _ Huniq Hin) as Hv.
    pose proof (dict_reducer_lookup_new a b k v Huniq Hv) as Hm.
    rewrite Forall_forall in Hdeep. pose proof (Hdeep _ Hin) as Hwf. simpl in Hwf.
    unfold merge_item. rewrite Hm.
    apply dict_set_same. rewrite Hm. f_equal.
    destruct v as [| | | |v'].
    - by destruct (dict_lookup k a) as [[]|].
    - by destruct (dict_lookup k a) as [[]|].
    - by destruct (dict_lookup k a) as [[]|].
    - by destruct (dict_lookup k a) as [[]|].
    - destruct (IH v' Hwf) as [Hv' Hself].
      destruct (dict_lookup k a) as [old|].
      + destruct old as [| | | |o].
        1-4: rewrite merge_value_leaf by done; by rewrite merge_value_dict, Hself.
        rewrite !merge_value_dict. by rewrite Hv'.
      + by rewrite merge_value_dict, Hself. }
  split; [done|].
  rewrite <- (dict_reducer_nil_l b Huniq) at 1 3. apply Hagain.
Qed.

(** The merge of well-formed maps is well-formed. *)
Lemma merge_value_well_formed n (old new : value) :
  well_formed n old -> well_formed n new -> well_formed n (merge_value old new).
Proof.
  revert old new. induction n as [|n IH]; intros old new Hold Hnew.
  - by destruct old, new.
  - destruct old as [| | | |a], new as [| | | |b]; try done.
    rewrite merge_value_dict. simpl in *.
    destruct Hold as [Ha Hda], Hnew as [Hb Hdb].
    split; [by apply dict_reducer_unique|].
    clear Ha Hb. revert a Hda. induction Hdb as [|[k v] b Hv _ IHb]; intros a Hda.
    + done.
    + rewrite dict_reducer_step. apply IHb. unfold merge_item.
      simpl in Hv.
      assert (well_formed n
                match dict_lookup k a with
                | Some old => merge_value old v
                | None => v
                end) as Hnewv.
      { destruct (dict_lookup k a) as [old|] eqn:E; [|done].
        apply IH; [|done]. apply dict_lookup_elem_of in E.
        rewrite Forall_forall in Hda. by apply (Hda _ E). }
      revert Hnewv. generalize (match dict_lookup k a with
                                | Some old => merge_value old v
                                | None => v
                                end). intros x Hx.
      clear -Hda Hx. induction Hda as [|[k0 v0] a H0 Hrest IHa]; simpl.
      * by repeat constructor.
      * destruct (String.eqb k k0); by constructor.
Qed.
End MergeAlgebra.

Section MergeLaws.
Import Reducers WellFormed.
Implicit Types (k key : string) (v : value).

(** Two dictionaries that disagree under a key are not equal. *)
Lemma py_eq_dict_differ (d1 d2 : dict) k (x y : value) :
  dict_lookup k d1 = Some x ->
  dict_lookup k d2 = Some y ->
  py_eq x y = false ->
  py_eq (VDict d1) (VDict d2) = false.
Proof.
  intros H1 H2 Hxy. simpl. apply andb_false_intro2.
  induction d1 as [|[k0 v0] d1 IH]; [done|].
  simpl in H1. destruct (String.eqb k k0) eqn:E.
  - apply String.eqb_eq in E as <-. injection H1 as ->.
    by rewrite H2, Hxy.
  - rewrite (IH H1). apply andb_false_r.
Qed.

Lemma dict_mem_set_ne (d : dict) k k' v :
  k <> k' -> dict_mem k' (dict_set k v d) = dict_mem k' d.
Proof. intros H. unfold dict_mem. by rewrite dict_lookup_set_ne. Qed.

Lemma dict_reducer_key_order (a b : dict) :
  unique_keys b ->
  dict_keys (dict_reducer a b) =
    (dict_keys a ++ List.filter (fun k => negb (dict_mem k a)) (dict_keys b))%list.
Proof.
  unfold unique_keys. revert a.
  induction b as [|[key v] rest IH]; intros a Hnodup.
  - unfold dict_keys at 3. simpl. by rewrite app_nil_r.
  - unfold dict_keys in Hnodup. rewrite fmap_cons, NoDup_cons in Hnodup.
    destruct Hnodup as [Hkey Hrest]. simpl in Hkey.
    rewrite dict_reducer_step, (IH _ Hrest). unfold merge_item.
    rewrite dict_keys_set_list.
    unfold dict_keys at 5. rewrite fmap_cons. cbn [List.filter fst].
    rewrite (List.filter_ext_in
               (fun k => negb (dict_mem k (dict_set key
                  match dict_lookup key a with
                  | Some old => merge_value old v
                  | None => v
                  end a)))
               (fun k => negb (dict_mem k a))).
    + destruct (dict_mem key a); simpl; [done|]. by rewrite <- app_assoc.
    + intros k Hk. rewrite dict_mem_set_ne; [done|]. intros ->.
      apply Hkey. by apply list_elem_of_In.
Qed.

(** X1. Merging with an empty map, on either side, gives back the other
    map as it is. *)
Theorem merge_with_empty (a b : dict) :
  unique_keys b ->
  dict_reducer [] b = b /\ dict_reducer a [] = a.
Proof. intros H. split; [by apply dict_reducer_nil_l|done]. Qed.

(** X2. Merging an update that was merged already changes nothing, and a
    map merged into itself is itself: for every well-formed update [b],
    merge(merge(a, b), b) = merge(a, b) and merge(b, b) = b. *)
Theorem merge_update_twice (n : nat) (a b : dict) :
  well_formed n (VDict b) ->
  dict_reducer (dict_reducer a b) b = dict_reducer a b /\
  dict_reducer b b = b.
Proof.
  intros H. destruct (dict_reducer_again n b H) as [Hagain Hself].
  split; [apply Hagain|exact Hself].
Qed.

(** X3. The merge of two well-formed maps is well-formed: every map inside
    the result holds each key once, and the result nests no deeper than
    its arguments. *)
Theorem merge_well_formed (n : nat) (a b : dict) :
  well_formed n (VDict a) ->
  well_formed n (VDict b) ->
  well_formed n (VDict (dict_reducer a b)).
Proof.
  intros Ha Hb. rewrite <- merge_value_dict.
  by apply merge_value_well_formed.
Qed.

(** X4. The last writer wins, so the merge does not commute: when two maps
    hold, under one key, values that are not both maps, each order of
    merging keeps the value of its second argument; if the two values
    differ, so do the two merges. *)
Theorem merge_last_writer_wins (a b : dict) k (v w : value) :
  unique_keys a ->
  unique_keys b ->
  dict_lookup k a = Some v ->
  dict_lookup k b = Some w ->
  is_dict v && is_dict w = false ->
  dict_lookup k (dict_reducer a b) = Some w /\
  dict_lookup k (dict_reducer b a) = Some v /\
  (py_eq w v = false ->
   py_eq (VDict (dict_reducer a b)) (VDict (dict_reducer b a)) = false).
Proof.
  intros Ha Hb Hv Hw Hleaf.
  assert (dict_lookup k (dict_reducer a b) = Some w) as Hab.
  { rewrite (dict_reducer_lookup_new _ _ _ _ Hb Hw), Hv.
    by rewrite merge_value_leaf. }
  assert (dict_lookup k (dict_reducer b a) = Some v) as Hba.
  { rewrite (dict_reducer_lookup_new _ _ _ _ Ha Hv), Hw.
    rewrite merge_value_leaf; [done|]. by rewrite andb_comm. }
  split; [done|]. split; [done|]. intros Hdiff.
  by apply (py_eq_dict_differ _ _ k w v).
Qed.

(** X5. The merge keeps the insertion order: the keys of the first map
    stay where they are, and the keys only the second has follow in the
    order the second has them. *)
Theorem merge_key_order (a b : dict) :
  unique_keys b ->
  dict_keys (dict_reducer a b) =
    (dict_keys a ++ List.filter (fun k => negb (dict_mem k a)) (dict_keys b))%list.
Proof. apply dict_reducer_key_order. Qed.
End MergeLaws.

(** ** More on the coordinator's plan *)

Section ParseFacts.
Import ContextUtils.
Variable lower : string -> string.

(** The plan of a text, from the tests the code makes on it. *)
Lemma parse_text (s : string) :
  let react := str_in "Thought:" s && str_in "Decision:" s in
  let notewriter :=
    react && (str_in "NOTEWRITER" s || str_in "note" (lower s)) in
  let advisor :=
    react && (str_in "ADVISOR" s || str_in "guidance" (lower s)) in
  parse_coordinator_response lower (VStr s) =
    (if advisor then add_advisor else id)
      ((if notewriter then add_notewriter else id) (default_analysis (VStr s))).
Proof.
  unfold parse_coordinator_response, parse_body, mentions. simpl.
  destruct (str_in "Thought:" s); simpl; [|done].
  destruct (str_in "Decision:" s); simpl; [|done].
  destruct (str_in "NOTEWRITER" s), (str_in "ADVISOR" s); simpl;
    try destruct (str_in "note" (lower s)); simpl;
    try destruct (str_in "guidance" (lower s)); done.
Qed.

(** X6. On a text, NOTEWRITER is required exactly when the text has both
    markers and either the token "NOTEWRITER" or, once lowercased, the
    word "note"; ADVISOR exactly when it has both markers and either
    "ADVISOR" or, lowercased, "guidance".  NOTEWRITER shares the planner's
    group exactly when it is required. *)
Theorem triggers_on_text (s : string) :
  let plan := parse_coordinator_response lower (VStr s) in
  let react := str_in "Thought:" s && str_in "Decision:" s in
  ("NOTEWRITER" ∈ required_agents plan <->
   react && (str_in "NOTEWRITER" s || str_in "note" (lower s)) = true) /\
  ("ADVISOR" ∈ required_agents plan <->
   react && (str_in "ADVISOR" s || str_in "guidance" (lower s)) = true) /\
  (concurrent_groups plan = [["PLANNER"; "NOTEWRITER"]] <->
   "NOTEWRITER" ∈ required_agents plan).
Proof.
  simpl. rewrite parse_text.
  destruct (str_in "Thought:" s && str_in "Decision:" s
            && (str_in "NOTEWRITER" s || str_in "note" (lower s)));
    destruct (str_in "Thought:" s && str_in "Decision:" s
              && (str_in "ADVISOR" s || str_in "guidance" (lower s)));
    simpl; rewrite ?elem_of_cons, ?elem_of_nil;
    repeat split; intros; try done; try tauto;
    repeat match goal with H : _ \/ _ |- _ => destruct H end; done.
Qed.

(** X7. In every plan the keys of [priority] are the required agents, in
    the same order and each once; PLANNER has priority 1, NOTEWRITER 2 and
    ADVISOR 3. *)
Theorem priority_of_required (response : value) :
  let plan := parse_coordinator_response lower response in
  dict_keys (priority plan) = required_agents plan /\
  NoDup (required_agents plan) /\
  forall id p, dict_lookup id (priority plan) = Some p ->
    (id = "PLANNER" /\ p = 1%Z) \/ (id = "NOTEWRITER" /\ p = 2%Z) \/
    (id = "ADVISOR" /\ p = 3%Z).
Proof.
  simpl.
  destruct (parse_coordinator_response_shape lower response)
    as [->|([|] & [|] & ->)]; simpl;
    (split; [reflexivity|]);
    (split; [repeat (apply NoDup_cons; split;
                     [rewrite ?elem_of_cons, ?elem_of_nil; intuition discriminate|]);
             apply NoDup_nil_2|]);
    intros id p;
    repeat match goal with
           | |- context [String.eqb id ?c] =>
               let E := fresh "E" in
               destruct (String.eqb id c) eqn:E;
               [apply String.eqb_eq in E; subst; intros [= <-]; tauto|]
           end;
    discriminate.
Qed.

(** X8. A response that is no text at all, [None] or a number, makes the
    test for the first marker raise; the parser answers with its fallback
    plan and the reasoning "Fallback due to parse error". *)
Theorem parse_not_a_text (response : value) :
  type_name response = "NoneType" \/ type_name response = "int" ->
  parse_coordinator_response lower response = fallback_analysis.
Proof. by destruct response; intros [|]. Qed.
End ParseFacts.

(** ** More on the executor *)

Section ExecutorMore.
Import Agents Executor.
Variable lower : string -> string.

Lemma select_tasks_aligned (agents : agents_table) (required : value)
    (names : list string) (tasks : list agent) :
  Forall2 (fun name a => py_contains required (VStr name) = Ok true /\
                         dict_lookup name agents = Some a) names tasks ->
  select_tasks agents required (VStr <$> names) = Ok tasks.
Proof.
  induction 1 as [|name a names tasks [Hreq Hknown] _ IH]; [done|].
  rewrite fmap_cons. simpl. rewrite Hreq. simpl.
  unfold find_agent, py_in_dict, dict_mem. rewrite Hknown. simpl.
  by rewrite IH.
Qed.

(** When names and tasks line up, every payload goes under the lowercased
    name of its own task, and the other keys are left alone. *)
Lemma collect_aligned (state : value) (names : list string) :
  forall (tasks : list agent) (n : nat) (results : dict),
    length names = length tasks ->
    NoDup (lower <$> names) ->
    exists results',
      collect lower (zip (VStr <$> names) (gather tasks state n)) results
        = Ok results' /\
      (forall i name a, names !! i = Some name -> tasks !! i = Some a ->
         match a (n + i) state with
         | Ok payload => dict_lookup (lower name) results' = Some payload
         | Raise _ =>
             dict_lookup (lower name) results' = dict_lookup (lower name) results
         end) /\
      (forall k, k ∉ lower <$> names ->
                 dict_lookup k results' = dict_lookup k results).
Proof.
  induction names as [|name names IH]; intros [|task tasks] n results Hlen Hnodup;
    try discriminate.
  { exists results. by repeat split. }
  rewrite fmap_cons, NoDup_cons in Hnodup. destruct Hnodup as [Hname Hnodup].
  injection Hlen as Hlen. rewrite fmap_cons. simpl.
  destruct (task n state) as [e|payload] eqn:Htask.
  - destruct (IH tasks (S n) results Hlen Hnodup) as (r & Hrun & Hown & Hother).
    exists r. split; [done|]. split.
    + intros [|i] name' a; simpl.
      * intros [= <-] [= <-]. rewrite Nat.add_0_r, Htask. by apply Hother.
      * intros Hi Ha. replace (n + S i) with (S n + i) by lia. by apply Hown.
    + intros k Hk. apply Hother. rewrite not_elem_of_cons in Hk. tauto.
  - destruct (IH tasks (S n) (dict_set (lower name) payload results) Hlen Hnodup)
      as (r & Hrun & Hown & Hother).
    exists r. split; [done|]. split.
    + intros [|i] name' a; simpl.
      * intros [= <-] [= <-]. rewrite Nat.add_0_r, Htask.
        rewrite (Hother _ Hname). apply dict_lookup_set_eq.
      * intros Hi Ha. replace (n + S i) with (S n + i) by lia.
        specialize (Hown i name' a Hi Ha).
        destruct (a (S n + i) state); [|done].
        rewrite Hown. apply dict_lookup_set_ne. intros Heq. apply Hname.
        rewrite Heq. apply list_elem_of_fmap. exists name'. split; [done|].
        by apply list_elem_of_lookup_2 in Hi.
    + intros k Hk. rewrite not_elem_of_cons in Hk. destruct Hk as [Hne Hk].
      rewrite (Hother _ Hk). by apply dict_lookup_set_ne.
Qed.

(** One group whose names and tasks line up, started on empty results. *)
Lemma run_group_aligned (agents : agents_table) (required state : value)
    (names : list string) (tasks : list agent) (n : nat) :
  Forall2 (fun name a => py_contains required (VStr name) = Ok true /\
                         dict_lookup name agents = Some a) names tasks ->
  NoDup (lower <$> names) ->
  exists results,
    run_groups lower agents required state [VList (VStr <$> names)] [] n
      = Ok (results, n + length tasks) /\
    (forall i name a, names !! i = Some name -> tasks !! i = Some a ->
       match a (n + i) state with
       | Ok payload => dict_lookup (lower name) results = Some payload
       | Raise _ => dict_lookup (lower name) results = None
       end) /\
    (forall k, k ∉ lower <$> names -> dict_lookup k results = None).
Proof.
  intros Haligned Hnodup.
  pose proof (Forall2_length _ _ _ Haligned) as Hlen.
  destruct (collect_aligned state names tasks n [] Hlen Hnodup)
    as (results & Hrun & Hown & Hother).
  simpl. rewrite (select_tasks_aligned _ _ _ _ Haligned). simpl.
  destruct tasks as [|task tasks].
  - destruct names; [|done]. exists []. rewrite Nat.add_0_r.
    split; [done|]. split; [|done]. intros i name a Hi. by destruct i.
  - exists results. rewrite Hrun. simpl. split; [done|]. by split.
Qed.

(** X9. When the plan has one group, every name of the group is required
    and has an implementation, no two names share a lowercased form, and
    at least one task returns, the output of [execute] holds the payload of
    each task that returned under the lowercased id of its own worker,
    nothing for a task that raised, and no other key. *)
Theorem aligned_group_own_keys (agents : agents_table) (required state : value)
    (names : list string) (tasks : list agent) (n : nat) :
  read_plan state = Ok (required, VList [VList (VStr <$> names)]) ->
  Forall2 (fun name a => py_contains required (VStr name) = Ok true /\
                         dict_lookup name agents = Some a) names tasks ->
  NoDup (lower <$> names) ->
  (exists i a payload, tasks !! i = Some a /\ a (n + i) state = Ok payload) ->
  exists results,
    execute lower agents state n = Ok (outputs results) /\
    (forall i name a, names !! i = Some name -> tasks !! i = Some a ->
       match a (n + i) state with
       | Ok payload => dict_lookup (lower name) results = Some payload
       | Raise _ => dict_lookup (lower name) results = None
       end) /\
    (forall k, k ∉ lower <$> names -> dict_lookup k results = None).
Proof.
  intros Hplan Haligned Hnodup (i & a & payload & Ha & Hreturned).
  destruct (run_group_aligned agents required state names tasks n Haligned
              Hnodup) as (results & Hrun & Hown & Hother).
  exists results. split; [|by split].
  destruct (Forall2_lookup_r _ _ _ _ _ Haligned Ha) as (name & Hname & _).
  specialize (Hown i name a Hname Ha). rewrite Hreturned in Hown.
  unfold execute, execute_body. rewrite Hplan.
  cbn [mbind result_bind py_iter]. rewrite Hrun. cbn [mbind result_bind].
  unfold fallback. by destruct results.
Qed.

(** X10. With the three workers of the repository, the output of
    [execute] is never empty: whatever the state, [agent_outputs] holds at
    least one entry. *)
Theorem outputs_never_empty (planner notewriter advisor : workflow)
    (state : value) (n : nat) :
  exists results,
    execute lower (AgentExecutor_init planner notewriter advisor) state n
      = Ok (outputs results) /\
    results <> [].
Proof.
  unfold execute, execute_body.
  destruct (read_plan state) as [e|[required groups]]; simpl;
    [by eexists; split; [reflexivity|]|].
  destruct (py_iter groups) as [e|gs]; simpl;
    [by eexists; split; [reflexivity|]|].
  destruct (run_groups _ _ _ _ _ _ _) as [e|[results n']]; simpl;
    [by eexists; split; [reflexivity|]|].
  destruct results as [|item results]; simpl.
  - destruct (PlannerAgent_call_returns planner n' state) as [plan ->]. simpl.
    by eexists; split; [reflexivity|].
  - by eexists; split; [reflexivity|].
Qed.
End ExecutorMore.

(** ** The coordinator, the router and the executor together *)

Section CoordinatorFacts.
Import ContextUtils Coordinator Agents Executor.
Variable lower : string -> string.

(** Whatever happens, the coordinator returns an update that holds the
    plan of some response. *)
Lemma coordinator_agent_shape (llm : backend) (messages : list message)
    (state : value) :
  exists response reasoning,
    coordinator_agent lower llm messages state =
      Ok (VDict [("results", VDict [("coordinator_analysis",
            coordinator_analysis (parse_coordinator_response lower response)
              reasoning)])]).
Proof.
  unfold coordinator_agent.
  destruct (analyze_context lower messages state) as [e|context]; simpl.
  { by exists VNone, (VStr "Error in coordination. Falling back to planner."). }
  destruct (last_message messages) as [e|query]; simpl.
  { by exists VNone, (VStr "Error in coordination. Falling back to planner."). }
  destruct (llm context messages) as [e|response]; simpl.
  { by exists VNone, (VStr "Error in coordination. Falling back to planner."). }
  by exists response, response.
Qed.

(** With no message, the context analysis raises. *)
Lemma analyze_context_no_message (state : value) :
  is_ok (analyze_context lower [] state) = false.
Proof.
  unfold analyze_context.
  destruct (py_get state "profile" _) as [e|profile]; simpl; [done|].
  destruct (py_get state "calendar" _) as [e|calendar]; simpl; [done|].
  destruct (py_get state "tasks" _) as [e|tasks]; simpl; [done|].
  destruct (py_get profile "academic_info" _) as [e|info]; simpl; [done|].
  by destruct (py_get info "current_courses" _).
Qed.

(** X11. The coordinator never raises, its update holds the key
    [coordinator_analysis] only, and the plan under it always requires
    PLANNER, has one group, and groups required agents only.  When the
    context analysis went through and the model answered, the plan is the
    one parsed from the answer and the reasoning is the answer itself. *)
Theorem coordinator_always_plans (llm : backend) (messages : list message)
    (state : value) :
  (exists plan reasoning,
     coordinator_agent lower llm messages state =
       Ok (VDict [("results", VDict [("coordinator_analysis",
             coordinator_analysis plan reasoning)])]) /\
     "PLANNER" ∈ required_agents plan /\
     (exists g, concurrent_groups plan = [g]) /\
     (forall g id, g ∈ concurrent_groups plan -> id ∈ g ->
                   id ∈ required_agents plan)) /\
  (forall context response,
     analyze_context lower messages state = Ok context ->
     llm context messages = Ok response ->
     coordinator_agent lower llm messages state =
       Ok (VDict [("results", VDict [("coordinator_analysis",
             coordinator_analysis (parse_coordinator_response lower response)
               response)])])).
Proof.
  split.
  - destruct (coordinator_agent_shape llm messages state)
      as (response & reasoning & ->).
    exists (parse_coordinator_response lower response), reasoning.
    split; [done|].
    destruct (parse_coordinator_response_shape lower response)
      as [->|([|] & [|] & ->)]; simpl;
      (split; [apply list_elem_of_here|]); (split; [by eexists|]);
      intros g id; rewrite list_elem_of_singleton; intros -> Hid;
      repeat (apply elem_of_cons in Hid as [->|Hid]);
      try (by apply elem_of_nil in Hid);
      repeat first [by apply list_elem_of_here | apply list_elem_of_further].
  - intros context response Hctx Hllm. unfold coordinator_agent.
    rewrite Hctx. simpl.
    destruct (last_message messages) as [e|query] eqn:Hlast; simpl.
    + destruct messages as [|m ms]; [|by destruct (last (m :: ms)) eqn:E;
        unfold last_message in Hlast; rewrite E in Hlast;
        [|apply last_None in E]].
      pose proof (analyze_context_no_message state) as Hno.
      by rewrite Hctx in Hno.
    + by rewrite Hllm.
Qed.

(** X12. With an empty conversation, or with [None] for profile (what
    [get_student_profile] returns for an unknown student), the coordinator
    answers with its fallback plan, PLANNER alone, and the model is not
    consulted. *)
Theorem coordinator_falls_back (llm : backend) (messages : list message)
    (state : dict) :
  messages = [] \/ dict_lookup "profile" state = Some VNone ->
  coordinator_agent lower llm messages (VDict state) = Ok coordinator_fallback.
Proof.
  intros [->|Hprofile]; unfold coordinator_agent.
  - pose proof (analyze_context_no_message (VDict state)) as Hno.
    by destruct (analyze_context lower [] (VDict state)).
  - unfold analyze_context. simpl. rewrite Hprofile.
    by destruct (dict_lookup "calendar" state), (dict_lookup "tasks" state).
Qed.

(** The executor on a state that holds a coordinator's plan: the group
    of the plan decides which workers run. *)
Lemma execute_coordinator_plan (planner notewriter advisor : workflow)
    (response reasoning state state_results : value) (n : nat) :
  py_subscript state "results" = Ok state_results ->
  py_get state_results "coordinator_analysis" (VDict []) =
    Ok (coordinator_analysis (parse_coordinator_response lower response)
          reasoning) ->
  let agents := AgentExecutor_init planner notewriter advisor in
  let plan := parse_coordinator_response lower response in
  exists payload,
    PlannerAgent_call planner n state = Ok payload /\
    ((concurrent_groups plan = [["PLANNER"]] /\
      execute lower agents state n = Ok (outputs [(lower "PLANNER", payload)])) \/
     (concurrent_groups plan = [["PLANNER"; "NOTEWRITER"]] /\
      exists notes,
        NoteWriterAgent_call notewriter (S n) state = Ok notes /\
        execute lower agents state n =
          Ok (outputs (dict_set (lower "NOTEWRITER") notes
                         [(lower "PLANNER", payload)])))).
Proof.
  intros Hres Hplan agents plan.
  destruct (agent_call_returns Planner planner n state) as [payload Hp].
  destruct (agent_call_returns NoteWriter notewriter (S n) state) as [notes Hn].
  simpl in Hp, Hn. eexists. split; [exact Hp|].
  unfold execute, execute_body, read_plan. rewrite Hres. simpl. rewrite Hplan.
  subst plan.
  destruct (parse_coordinator_response_shape lower response)
    as [->|([|] & [|] & ->)]; simpl; rewrite Hp; simpl;
    try (by left); right; (split; [done|]); eexists; (split; [exact Hn|]);
    rewrite Hn; simpl; by destruct (lower "NOTEWRITER" =? lower "PLANNER").
Qed.

(** X13. From the coordinator to the executor: once the coordinator's
    update is merged by [dict_reducer] into results that held no plan, the
    executor runs the planner and, exactly when the group of the plan is
    PLANNER with NOTEWRITER, the note writer with it; it never runs the
    advisor, required or not.  With the group [PLANNER] the output holds
    the planner's payload alone; with the group [PLANNER, NOTEWRITER] it
    holds the planner's payload and the note writer's. *)
Theorem coordinator_then_execute (llm : backend) (messages : list message)
    (before : value) (analysis state : value) (old : dict)
    (planner notewriter advisor : workflow) (n : nat) :
  coordinator_agent lower llm messages before =
    Ok (VDict [("results", VDict [("coordinator_analysis", analysis)])]) ->
  dict_lookup "coordinator_analysis" old = None ->
  py_subscript state "results" =
    Ok (VDict (Reducers.dict_reducer old [("coordinator_analysis", analysis)])) ->
  let agents := AgentExecutor_init planner notewriter advisor in
  exists payload group,
    py_subscript analysis "concurrent_groups" = Ok (VList [VList (VStr <$> group)]) /\
    PlannerAgent_call planner n state = Ok payload /\
    ((group = ["PLANNER"] /\
      execute lower agents state n = Ok (outputs [(lower "PLANNER", payload)])) \/
     (group = ["PLANNER"; "NOTEWRITER"] /\
      exists notes,
        NoteWriterAgent_call notewriter (S n) state = Ok notes /\
        execute lower agents state n =
          Ok (outputs (dict_set (lower "NOTEWRITER") notes
                         [(lower "PLANNER", payload)])))).
Proof.
  intros Hcoord Hold Hstate.
  destruct (coordinator_agent_shape llm messages before)
    as (response & reasoning & Hshape).
  rewrite Hshape in Hcoord. injection Hcoord as <-.
  destruct (execute_coordinator_plan planner notewriter advisor response
              reasoning state _ n Hstate) as (payload & Hp & Hrun).
  { cbn [py_get].
    rewrite (dict_reducer_lookup_new old _ "coordinator_analysis"
               (coordinator_analysis
                  (parse_coordinator_response lower response) reasoning)).
    - by rewrite Hold.
    - unfold Reducers.unique_keys. simpl. apply NoDup_singleton.
    - done. }
  exists payload.
  destruct Hrun as [[Hgroup Hrun]|[Hgroup Hrun]].
  - exists ["PLANNER"]. split; [simpl; by rewrite Hgroup|].
    split; [done|]. by left.
  - exists ["PLANNER"; "NOTEWRITER"]. split; [simpl; by rewrite Hgroup|].
    split; [done|]. by right.
Qed.
End CoordinatorFacts.

Section GraphFacts.
Import ContextUtils Coordinator Graph.
Variable lower : string -> string.

(** X14. When the router returns, it returns at least one node, and only
    entry nodes, each at most once and in the order calendar, note
    writer, advisor. *)
Theorem route_some_entry_nodes (state : value) (nodes : list string) :
  route_to_parallel_agents state = Ok nodes ->
  nodes <> [] /\ sublist nodes entry_nodes.
Proof.
  unfold route_to_parallel_agents, entry_nodes.
  destruct (py_subscript state "results") as [e|r]; simpl; [done|].
  destruct (py_get r _ _) as [e|analysis]; simpl; [done|].
  destruct (py_get analysis _ _) as [e|required]; simpl; [done|].
  destruct (py_contains required (VStr "PLANNER")) as [e|[|]]; simpl; [done| |];
    (destruct (py_contains required (VStr "NOTEWRITER")) as [e|[|]];
       simpl; [done| |]);
    (destruct (py_contains required (VStr "ADVISOR")) as [e|[|]];
       simpl; [done| |]);
    intros [= <-]; (split; [done|]); repeat constructor.
Qed.

(** X15. On a state that holds a coordinator's plan the router always
    starts the planner's pipeline, starts the note writer's exactly when
    NOTEWRITER is required and the advisor's exactly when ADVISOR is
    required. *)
Theorem route_coordinator_plan (response reasoning state state_results : value) :
  py_subscript state "results" = Ok state_results ->
  py_get state_results "coordinator_analysis" (VDict []) =
    Ok (coordinator_analysis (parse_coordinator_response lower response)
          reasoning) ->
  let plan := parse_coordinator_response lower response in
  exists nodes,
    route_to_parallel_agents state = Ok ("calendar_analyzer" :: nodes) /\
    ("notewriter_analyze" ∈ nodes <-> "NOTEWRITER" ∈ required_agents plan) /\
    ("advisor_analyze" ∈ nodes <-> "ADVISOR" ∈ required_agents plan).
Proof.
  intros Hres Hplan. unfold route_to_parallel_agents.
  rewrite Hres. simpl. rewrite Hplan.
  destruct (parse_coordinator_response_shape lower response)
    as [->|([|] & [|] & ->)]; simpl; eexists; (split; [reflexivity|]);
    rewrite ?elem_of_cons, ?elem_of_nil; split; split; intros H;
    repeat match goal with H : _ \/ _ |- _ => destruct H end;
    try done; tauto.
Qed.
End GraphFacts.

(** ** Looking up a student and analysing the context *)

Section DataManagerFacts.
Import DataManager.

Lemma first_profile_found (student_id : string) (profiles : list value)
    (p : value) :
  first_profile student_id profiles = Ok p /\ p <> VNone <->
  exists before after id,
    profiles = (before ++ p :: after)%list /\
    py_subscript p "id" = Ok id /\ py_eq id (VStr student_id) = true /\
    Forall (other_student student_id) before.
Proof.
  split.
  - induction profiles as [|q rest IH]; simpl; [by intros [[= <-] ?]|].
    destruct (py_subscript q "id") as [e|id] eqn:Hid; simpl; [by intros [? ?]|].
    destruct (py_eq id (VStr student_id)) eqn:Heq.
    + intros [[= <-] _]. by exists [], rest, id.
    + intros H. destruct (IH H) as (before & after & id' & -> & ? & ? & ?).
      exists (q :: before), after, id'. repeat split; try done.
      constructor; [by exists id|done].
  - intros (before & after & id & -> & Hid & Heq & Hbefore).
    split; [|by intros ->].
    induction Hbefore as [|q before (qid & Hq & Hne) _ IH]; simpl.
    + rewrite Hid. simpl. by rewrite Heq.
    + rewrite Hq. simpl. by rewrite Hne.
Qed.

Lemma first_profile_none (student_id : string) (profiles : list value) :
  first_profile student_id profiles = Ok VNone <->
  Forall (other_student student_id) profiles.
Proof.
  induction profiles as [|q rest IH]; simpl; [by split|].
  split.
  - destruct (py_subscript q "id") as [e|id] eqn:Hid; simpl; [done|].
    destruct (py_eq id (VStr student_id)) eqn:Heq.
    + intros [= ->]. by simpl in Hid.
    + intros H. constructor; [by exists id|by apply IH].
  - intros H. inversion H as [|? ? (qid & Hq & Hne) Hrest]; subst.
    rewrite Hq. simpl. rewrite Hne. by apply IH.
Qed.

(** X16. [get_student_profile] returns a profile exactly when the data is
    not empty and the list under "profiles" holds, after profiles that all
    have another id, a profile with the id looked for; it returns the
    first such profile, and what follows it in the list is not looked at,
    well-formed or not. *)
Theorem student_profile_found (profile_data : value) (student_id : string)
    (p : value) :
  get_student_profile profile_data student_id = Ok p /\ p <> VNone <->
  truthy profile_data = true /\
  exists listed before after id,
    py_subscript profile_data "profiles" = Ok listed /\
    py_iter listed = Ok (before ++ p :: after)%list /\
    py_subscript p "id" = Ok id /\ py_eq id (VStr student_id) = true /\
    Forall (other_student student_id) before.
Proof.
  unfold get_student_profile. split.
  - destruct (truthy profile_data); [|by intros [[= <-] ?]].
    destruct (py_subscript profile_data "profiles") as [e|listed] eqn:Hlisted;
      simpl; [by intros [? ?]|].
    destruct (py_iter listed) as [e|profiles] eqn:Hiter;
      simpl; [by intros [? ?]|].
    intros H. apply first_profile_found in H
      as (before & after & id & -> & ? & ? & ?).
    split; [done|]. by exists listed, before, after, id.
  - intros [-> (listed & before & after & id & -> & Hiter & ? & ? & ?)].
    simpl. rewrite Hiter. simpl. apply first_profile_found.
    by exists before, after, id.
Qed.

(** X17. [get_student_profile] returns [None] exactly when no data is
    loaded (or the data is empty), or every listed profile has an id and
    none of them is the one looked for. *)
Theorem student_profile_missing (profile_data : value) (student_id : string) :
  get_student_profile profile_data student_id = Ok VNone <->
  truthy profile_data = false \/
  exists listed profiles,
    py_subscript profile_data "profiles" = Ok listed /\
    py_iter listed = Ok profiles /\
    Forall (other_student student_id) profiles.
Proof.
  unfold get_student_profile. destruct (truthy profile_data).
  - split.
    + destruct (py_subscript profile_data "profiles") as [e|listed] eqn:Hlisted;
        simpl; [done|].
      destruct (py_iter listed) as [e|profiles] eqn:Hiter; simpl; [done|].
      intros H. right. exists listed, profiles.
      split; [done|]. split; [done|]. by apply first_profile_none.
    + intros [?|(listed & profiles & -> & Hiter & H)]; [done|].
      simpl. rewrite Hiter. simpl. by apply first_profile_none.
  - split; [by left|done].
Qed.
End DataManagerFacts.

Section ContextAnalysisFacts.
Import Coordinator.
Variable lower : string -> string.

(** X18. The course [analyze_context] picks is the first of the student's
    courses whose lowercased name occurs in the request: [find_course]
    returns a course exactly when the list holds it after courses that all
    have a name the request does not contain, and its own name does occur. *)
Theorem find_course_first (request : string) (courses : list value)
    (course : value) :
  find_course lower request courses = Ok course /\ course <> VNone <->
  exists before after name,
    courses = (before ++ course :: after)%list /\
    py_subscript course "name" = Ok (VStr name) /\
    str_in (lower name) request = true /\
    Forall (other_course lower request) before.
Proof.
  split.
  - induction courses as [|c rest IH]; simpl; [by intros [[= <-] ?]|].
    destruct (py_subscript c "name") as [e|[| |name| |]] eqn:Hname;
      simpl; try (by intros [? ?]).
    destruct (str_in (lower name) request) eqn:Hin.
    + intros [[= <-] _]. by exists [], rest, name.
    + intros H. destruct (IH H) as (before & after & name' & -> & ? & ? & ?).
      exists (c :: before), after, name'. repeat split; try done.
      constructor; [by exists name|done].
  - intros (before & after & name & -> & Hname & Hin & Hbefore).
    split; [|by intros ->].
    induction Hbefore as [|c before (cn & Hc & Hne) _ IH]; simpl.
    + rewrite Hname. simpl. by rewrite Hin.
    + rewrite Hc. simpl. by rewrite Hne.
Qed.

(** X19. On a state with no profile, no calendar and no tasks, and at
    least one message, [analyze_context] returns the context of defaults:
    major "Unknown", no year, no course, zero events and zero tasks. *)
Theorem analyze_context_defaults (messages : list message) (latest : message)
    (state : dict) :
  last messages = Some latest ->
  dict_lookup "profile" state = None ->
  dict_lookup "calendar" state = None ->
  dict_lookup "tasks" state = None ->
  analyze_context lower messages (VDict state) =
    Ok (VDict [("student", VDict [("major", VStr "Unknown");
                                  ("year", VNone);
                                  ("learning_style", VDict [])]);
               ("course", VNone);
               ("upcoming_events", VNum 0);
               ("active_tasks", VNum 0);
               ("study_patterns", VDict [])]).
Proof.
  intros Hlast Hp Hc Ht. unfold analyze_context, last_message. simpl.
  by rewrite Hp, Hc, Ht, Hlast.
Qed.

Lemma py_len_nonneg (v : value) (n : Z) : py_len v = Ok n -> (0 <= n)%Z.
Proof. destruct v; simpl; intros [= <-]; lia. Qed.

(** X20. When [analyze_context] returns, its context has the five keys
    student, course, upcoming_events, active_tasks and study_patterns; the
    two counts are not negative, and they are the lengths of the lists
    under [calendar["events"]] and [tasks["tasks"]]. *)
Theorem analyze_context_counts (messages : list message) (state context : value) :
  analyze_context lower messages state = Ok context ->
  exists student course upcoming_events active_tasks study_patterns,
    context = VDict [("student", student);
                     ("course", course);
                     ("upcoming_events", VNum upcoming_events);
                     ("active_tasks", VNum active_tasks);
                     ("study_patterns", study_patterns)] /\
    (0 <= upcoming_events)%Z /\ (0 <= active_tasks)%Z /\
    (forall calendar events,
        py_get state "calendar" (VDict []) = Ok calendar ->
        py_get calendar "events" (VList []) = Ok (VList events) ->
        upcoming_events = Z.of_nat (length events)) /\
    (forall tasks items,
        py_get state "tasks" (VDict []) = Ok tasks ->
        py_get tasks "tasks" (VList []) = Ok (VList items) ->
        active_tasks = Z.of_nat (length items)).
Proof.
  unfold analyze_context.
  destruct (py_get state "profile" _) as [e|profile]; simpl; [done|].
  destruct (py_get state "calendar" _) as [e|calendar]; simpl; [done|].
  destruct (py_get state "tasks" _) as [e|tasks]; simpl; [done|].
  destruct (py_get profile "academic_info" _) as [e|info]; simpl; [done|].
  destruct (py_get info "current_courses" _) as [e|courses]; simpl; [done|].
  destruct (last_message messages) as [e|latest]; simpl; [done|].
  destruct (py_iter courses) as [e|course_list]; simpl; [done|].
  destruct (find_course _ _ _) as [e|course]; simpl; [done|].
  destruct (py_get profile "personal_info" _) as [e|personal]; simpl; [done|].
  destruct (py_get personal "major" _) as [e|major]; simpl; [done|].
  destruct (py_get personal "academic_year" _) as [e|year]; simpl; [done|].
  destruct (py_get profile "learning_preferences" _) as [e|prefs];
    simpl; [done|].
  destruct (py_get prefs "learning_style" _) as [e|style]; simpl; [done|].
  destruct (py_get calendar "events" _) as [e|events] eqn:Hev; simpl; [done|].
  destruct (py_len events) as [e|up] eqn:Hup; simpl; [done|].
  destruct (py_get tasks "tasks" _) as [e|task_list] eqn:Htl; simpl; [done|].
  destruct (py_len task_list) as [e|act] eqn:Hact; simpl; [done|].
  destruct (py_get prefs "study_patterns" _) as [e|patterns]; simpl; [done|].
  intros [= <-]. eexists _, course, up, act, patterns.
  split; [reflexivity|].
  split; [by apply (py_len_nonneg events)|].
  split; [by apply (py_len_nonneg task_list)|].
  split.
  - intros ? es [= <-] He. rewrite He in Hev. injection Hev as <-.
    simpl in Hup. by injection Hup as <-.
  - intros ? ts [= <-] He. rewrite He in Htl. injection Htl as <-.
    simpl in Hact. by injection Hact as <-.
Qed.
End ContextAnalysisFacts.

(** ** What a worker returns, and the prompt sent to the model *)

Section WorkersFacts.
Import Agents Workers.

(** X21. When the step sequence of a worker returns, the worker hands
    back the text it finds in the final state under its own key of
    results; when that key, or the text under it, is missing it hands back
    its default text ("No plan generated." and the like); and when the final
    state has no results at all, the [KeyError] becomes the text of an
    error payload.  In every case the payload has the single key of the
    variant. *)
Theorem worker_reads_final_state (w : variant) (wf : workflow) (n : nat)
    (state : value) (final_state : dict) :
  wf n state = Ok final_state ->
  (forall r inner text,
      dict_lookup "results" final_state = Some (VDict r) ->
      dict_lookup (result_key w) r = Some (VDict inner) ->
      dict_lookup (payload_key w) inner = Some text ->
      agent_call w wf n state = Ok (VDict [(payload_key w, text)])) /\
  (forall r,
      dict_lookup "results" final_state = Some (VDict r) ->
      dict_lookup (result_key w) r = None \/
      (exists inner, dict_lookup (result_key w) r = Some (VDict inner) /\
                     dict_lookup (payload_key w) inner = None) ->
      agent_call w wf n state =
        Ok (VDict [(payload_key w, VStr (default_text w))])) /\
  (dict_lookup "results" final_state = None ->
   agent_call w wf n state =
     Ok (VDict [(payload_key w, VStr (error_prefix w ++ "'results'"))])).
Proof.
  intros Hwf. split; [|split].
  - intros r inner text Hr Hinner Htext.
    destruct w; simpl in *;
      [unfold PlannerAgent_call|unfold NoteWriterAgent_call
      |unfold AdvisorAgent_call];
      rewrite Hwf; simpl; rewrite Hr; simpl; rewrite Hinner; simpl;
      by rewrite Htext.
  - intros r Hr [Hnone|(inner & Hinner & Hnone)];
      destruct w; simpl in *;
      [unfold PlannerAgent_call|unfold NoteWriterAgent_call
      |unfold AdvisorAgent_call|unfold PlannerAgent_call
      |unfold NoteWriterAgent_call|unfold AdvisorAgent_call];
      rewrite Hwf; simpl; rewrite Hr; simpl;
      first [by rewrite Hnone | rewrite Hinner; simpl; by rewrite Hnone].
  - intros Hnone.
    destruct w; simpl in *;
      [unfold PlannerAgent_call|unfold NoteWriterAgent_call
      |unfold AdvisorAgent_call];
      rewrite Hwf; simpl; by rewrite Hnone.
Qed.
End WorkersFacts.

Section PromptFacts.
Import GeminiLLM.

Lemma string_app_assoc (a b c : string) : (a ++ b) ++ c = a ++ b ++ c.
Proof.
  induction a as [|x a IH]; [done|].
  change (String x ((a ++ b) ++ c) = String x (a ++ b ++ c)). by f_equal.
Qed.

Lemma join_app (sep : string) (xs ys : list string) :
  xs <> [] -> ys <> [] ->
  join sep (xs ++ ys)%list = join sep xs ++ sep ++ join sep ys.
Proof.
  intros Hx Hy. induction xs as [|x xs IH]; [done|].
  destruct xs as [|x' xs].
  - simpl. by destruct ys.
  - change (join sep ((x :: x' :: xs) ++ ys)%list)
      with (x ++ sep ++ join sep ((x' :: xs) ++ ys)%list).
    rewrite IH by done.
    change (join sep (x :: x' :: xs)) with (x ++ sep ++ join sep (x' :: xs)).
    by rewrite !string_app_assoc.
Qed.

(** X22. The prompt of a conversation put together from two non-empty
    parts is the prompt of the first part, a blank line, and the prompt of
    the second; a message with no role, or a role that is neither "system"
    nor "assistant", is rendered as a user's. *)
Theorem prompt_of_two_parts (first second : list chat_message) :
  first <> [] -> second <> [] ->
  _convert_messages_to_prompt (first ++ second)%list =
    _convert_messages_to_prompt first ++ (newline ++ newline)
      ++ _convert_messages_to_prompt second /\
  forall msg,
    role msg <> Some "system" -> role msg <> Some "assistant" ->
    _convert_messages_to_prompt [msg] = "User: " ++ default "" (content msg).
Proof.
  intros H1 H2. split.
  - unfold _convert_messages_to_prompt. rewrite fmap_app.
    apply join_app; by destruct first, second.
  - intros [[r|] c] Hs Ha; simpl in *; [|done].
    unfold _convert_messages_to_prompt, prompt_part. simpl.
    destruct (String.eqb r "system") eqn:E1.
    { apply String.eqb_eq in E1. congruence. }
    destruct (String.eqb r "assistant") eqn:E2.
    { apply String.eqb_eq in E2. congruence. }
    done.
Qed.
End PromptFacts.

(** ** The merge over the store, on any store *)

Section StoreAlways.
Import Reducers Reducers.Store.
Implicit Types (h : store) (items m : sdict) (k key : string) (v : sval).

(** The loop, for a recursive call that leaves objects in place and
    returns a new address: only [merged] is written; a key the items do
    not have keeps its value; a key they have takes the incoming value,
    unless both values are references, when it takes a new address. *)
Lemma merge_items_writes_merged rec (merged : loc) :
  (forall h a b h1 r, rec h a b = Some (h1, r) ->
     r = length h /\ length h < length h1 /\
     forall l d, h !! l = Some d -> h1 !! l = Some d) ->
  forall items h m h',
    h !! merged = Some m ->
    merge_items rec merged h items = Some h' ->
    length h <= length h' /\
    (forall l d, l <> merged -> h !! l = Some d -> h' !! l = Some d) /\
    exists m', h' !! merged = Some m' /\
      (forall k, dict_lookup k items = None ->
                 dict_lookup k m' = dict_lookup k m) /\
      (NoDup (dict_keys items) ->
       forall k v, dict_lookup k items = Some v ->
         match dict_lookup k m, v with
         | Some (SRef _), SRef _ =>
             exists c, dict_lookup k m' = Some (SRef c) /\ merged < c
         | _, _ => dict_lookup k m' = Some v
         end).
Proof.
  intros Hrec. induction items as [|[key v] rest IH]; intros h m h' Hm Hrun.
  { injection Hrun as <-. split; [done|]. split; [done|].
    exists m. by repeat split. }
  pose proof (lookup_lt_Some _ _ _ Hm) as Hlt.
  assert (forall x h1 h2,
            length h <= length h1 ->
            (forall l d, l <> merged -> h !! l = Some d -> h1 !! l = Some d) ->
            h1 !! merged = Some m ->
            merge_items rec merged (<[merged := dict_set key x m]> h1) rest
              = Some h2 ->
            length h <= length h2 /\
            (forall l d, l <> merged -> h !! l = Some d -> h2 !! l = Some d) /\
            exists m', h2 !! merged = Some m' /\
              (forall k, dict_lookup k ((key, v) :: rest) = None ->
                         dict_lookup k m' = dict_lookup k m) /\
              (NoDup (dict_keys ((key, v) :: rest)) ->
               forall k v', dict_lookup k rest = Some v' -> k <> key ->
                 match dict_lookup k m, v' with
                 | Some (SRef _), SRef _ =>
                     exists c, dict_lookup k m' = Some (SRef c) /\ merged < c
                 | _, _ => dict_lookup k m' = Some v'
                 end) /\
              (dict_lookup key rest = None -> dict_lookup key m' = Some x))
    as Hstep.
  { intros x h1 h2 Hlen1 Hkeep1 Hm1 Hrest.
    assert (merged < length h1) as Hlt1 by lia.
    destruct (IH (<[merged := dict_set key x m]> h1) (dict_set key x m) h2)
      as (Hlen2 & Hkeep2 & m' & Hm' & Hold & Hnew); [|done|].
    { by apply list_lookup_insert_eq. }
    rewrite length_insert in Hlen2.
    split; [lia|]. split.
    { intros l d Hne Hd. apply Hkeep2; [done|].
      rewrite list_lookup_insert_ne by done. by apply Hkeep1. }
    exists m'. split; [done|]. split; [|split].
    - intros k Hk. simpl in Hk. destruct (String.eqb k key) eqn:E; [done|].
      rewrite (Hold _ Hk). apply dict_lookup_set_ne.
      apply String.eqb_neq in E. congruence.
    - intros Hnodup k v' Hk Hne.
      unfold dict_keys in Hnodup. rewrite fmap_cons, NoDup_cons in Hnodup.
      specialize (Hnew (proj2 Hnodup) k v' Hk).
      by rewrite dict_lookup_set_ne in Hnew by congruence.
    - intros Hnone. rewrite (Hold _ Hnone). apply dict_lookup_set_eq. }
  assert (NoDup (dict_keys ((key, v) :: rest)) -> dict_lookup key rest = None)
    as Hfresh.
  { unfold dict_keys. rewrite fmap_cons, NoDup_cons. intros [Hkey _].
    by apply dict_lookup_None. }
  destruct (merge_items_cons rec merged h key v rest m Hm)
    as [(old & new & Hold & -> & Heq)|[Hleaf Heq]]; rewrite Heq in Hrun.
  - destruct (rec h old new) as [[h1 r]|] eqn:Hcall; [|done].
    destruct (Hrec _ _ _ _ _ Hcall) as (-> & Hlen1 & Hkeep1).
    cbn [mbind option_bind] in Hrun. rewrite (Hkeep1 _ _ Hm) in Hrun.
    cbn [mbind option_bind] in Hrun.
    destruct (Hstep (SRef (length h)) h1 h') as
      (Hlen & Hkeep & m' & Hm' & Hother & Hrest & Hkey).
    { lia. } { intros l d _ Hd. by apply Hkeep1. } { by apply Hkeep1. }
    { done. }
    split; [done|]. split; [done|]. exists m'. split; [done|].
    split; [done|]. intros Hnodup k v' Hk. simpl in Hk.
    destruct (String.eqb k key) eqn:E.
    + apply String.eqb_eq in E as ->. injection Hk as <-. rewrite Hold.
      exists (length h). split; [by apply Hkey, Hfresh|done].
    + apply (Hrest Hnodup k v' Hk). apply String.eqb_neq in E. congruence.
  - destruct (Hstep v h h') as
      (Hlen & Hkeep & m' & Hm' & Hother & Hrest & Hkey).
    { lia. } { by intros l d _ Hd. } { done. } { done. }
    split; [done|]. split; [done|]. exists m'. split; [done|].
    split; [done|]. intros Hnodup k v' Hk. simpl in Hk.
    destruct (String.eqb k key) eqn:E.
    + apply String.eqb_eq in E as ->. injection Hk as <-.
      specialize (Hkey (Hfresh Hnodup)).
      destruct (dict_lookup key m) as [[| | | |?]|], v; done.
    + apply (Hrest Hnodup k v' Hk). apply String.eqb_neq in E. congruence.
Qed.

Lemma dict_reducer_extends fuel : forall h a b h1 r,
  Store.dict_reducer fuel h a b = Some (h1, r) ->
  r = length h /\ length h < length h1 /\
  forall l d, h !! l = Some d -> h1 !! l = Some d.
Proof.
  induction fuel as [|fuel IH]; intros h a b h1 r; [done|].
  simpl. destruct (h !! a) as [items1|]; simpl; [|done].
  destruct (h !! b) as [items2|]; simpl; [|done].
  destruct (merge_items _ _ _ _) as [h'|] eqn:Hrun; simpl; [|done].
  intros [= <- <-].
  destruct (merge_items_writes_merged _ (length h) IH items2
              (h ++ [items1])%list items1 h')
    as (Hlen & Hkeep & _); [by apply list_lookup_middle|done|].
  rewrite length_app in Hlen. simpl in Hlen.
  split; [done|]. split; [lia|]. intros l d Hd. apply Hkeep.
  - apply lookup_lt_Some in Hd. lia.
  - by apply lookup_app_l_Some.
Qed.

(** X23. The merge never writes to an object that exists: on any store,
    well-formed or not, a run that returns has added objects after the
    ones that were there, left every one of those as it was, and returns
    the address of a new object. *)
Theorem merge_never_overwrites (fuel : nat) (h h' : store) (dict1 dict2 r : loc) :
  Store.dict_reducer fuel h dict1 dict2 = Some (h', r) ->
  r = length h /\ length h < length h' /\
  forall l d, h !! l = Some d -> h' !! l = Some d.
Proof. apply dict_reducer_extends. Qed.

(** X24. The copy is shallow.  In the merged object a key that only the
    first map has holds the very value the first map holds, a nested map
    by the same address; a key of the second map holds the very value of
    the second map, unless both maps hold a nested map there, in which
    case it holds the address of a new object. *)
Theorem merge_shares_values (fuel : nat) (h h' : store) (dict1 dict2 r : loc)
    (items1 items2 : sdict) :
  h !! dict1 = Some items1 ->
  h !! dict2 = Some items2 ->
  NoDup (dict_keys items2) ->
  Store.dict_reducer fuel h dict1 dict2 = Some (h', r) ->
  exists merged,
    h' !! r = Some merged /\
    (forall k, dict_lookup k items2 = None ->
               dict_lookup k merged = dict_lookup k items1) /\
    (forall k v, dict_lookup k items2 = Some v ->
       match dict_lookup k items1, v with
       | Some (SRef _), SRef _ =>
           exists c, dict_lookup k merged = Some (SRef c) /\ length h < c
       | _, _ => dict_lookup k merged = Some v
       end).
Proof.
  intros H1 H2 Hnodup. destruct fuel as [|fuel]; [done|].
  simpl. rewrite H1, H2. simpl.
  destruct (merge_items _ _ _ _) as [h1|] eqn:Hrun; simpl; [|done].
  intros [= <- <-].
  destruct (merge_items_writes_merged _ (length h) (dict_reducer_extends fuel)
              items2 (h ++ [items1])%list items1 h1)
    as (_ & _ & m' & Hm' & Hold & Hnew); [by apply list_lookup_middle|done|].
  exists m'. split; [done|]. split; [done|]. by apply Hnew.
Qed.
End StoreAlways.

(** ** Instances of the properties above *)

Lemma merge_with_empty_witness :
  Reducers.dict_reducer [] [("a", VNum 1); ("b", VDict [("x", VNum 2)])]
    = [("a", VNum 1); ("b", VDict [("x", VNum 2)])] /\
  Reducers.dict_reducer [("a", VNum 1)] [] = [("a", VNum 1)].
Proof.
  apply (merge_with_empty [("a", VNum 1)]
           [("a", VNum 1); ("b", VDict [("x", VNum 2)])]).
  by apply (bool_decide_unpack _).
Defined.

Lemma merge_update_twice_witness :
  let a := [("a", VDict [("x", VNum 1)]); ("b", VNum 2)] in
  let b := [("a", VDict [("y", VNum 2)]); ("c", VNum 3)] in
  Reducers.dict_reducer (Reducers.dict_reducer a b) b = Reducers.dict_reducer a b /\
  Reducers.dict_reducer b b = b.
Proof.
  apply (merge_update_twice 2
           [("a", VDict [("x", VNum 1)]); ("b", VNum 2)]
           [("a", VDict [("y", VNum 2)]); ("c", VNum 3)]).
  split; [by apply (bool_decide_unpack _)|].
  repeat constructor; simpl; try done.
  - by apply (bool_decide_unpack _).
Defined.

Lemma merge_well_formed_witness :
  WellFormed.well_formed 2
    (VDict (Reducers.dict_reducer
              [("a", VDict [("x", VNum 1)]); ("b", VNum 2)]
              [("a", VDict [("y", VNum 2)]); ("c", VNum 3)])).
Proof.
  apply (merge_well_formed 2
           [("a", VDict [("x", VNum 1)]); ("b", VNum 2)]
           [("a", VDict [("y", VNum 2)]); ("c", VNum 3)]).
  - split; [by apply (bool_decide_unpack _)|].
    repeat constructor; simpl; try done. by apply (bool_decide_unpack _).
  - split; [by apply (bool_decide_unpack _)|].
    repeat constructor; simpl; try done. by apply (bool_decide_unpack _).
Defined.

Lemma merge_last_writer_wins_witness :
  let a := [("plan", VStr "first"); ("notes", VDict [])] in
  let b := [("plan", VStr "second")] in
  dict_lookup "plan" (Reducers.dict_reducer a b) = Some (VStr "second") /\
  dict_lookup "plan" (Reducers.dict_reducer b a) = Some (VStr "first") /\
  py_eq (VDict (Reducers.dict_reducer a b)) (VDict (Reducers.dict_reducer b a))
    = false.
Proof.
  destruct (merge_last_writer_wins
              [("plan", VStr "first"); ("notes", VDict [])]
              [("plan", VStr "second")] "plan" (VStr "first") (VStr "second"))
    as (Hab & Hba & Hne).
  - by apply (bool_decide_unpack _).
  - by apply (bool_decide_unpack _).
  - reflexivity.
  - reflexivity.
  - reflexivity.
  - split; [exact Hab|]. split; [exact Hba|]. apply Hne. reflexivity.
Defined.

Lemma merge_key_order_witness :
  dict_keys (Reducers.dict_reducer
               [("a", VNum 1); ("b", VNum 2)]
               [("c", VNum 3); ("a", VNum 4); ("d", VNum 5)])
  = ["a"; "b"; "c"; "d"].
Proof.
  apply (merge_key_order [("a", VNum 1); ("b", VNum 2)]
           [("c", VNum 3); ("a", VNum 4); ("d", VNum 5)]).
  by apply (bool_decide_unpack _).
Defined.

Lemma parse_not_a_text_witness :
  ContextUtils.parse_coordinator_response ascii_lower VNone
    = ContextUtils.fallback_analysis /\
  ContextUtils.parse_coordinator_response ascii_lower (VNum 7)
    = ContextUtils.fallback_analysis.
Proof.
  split.
  - apply (parse_not_a_text ascii_lower VNone). by left.
  - apply (parse_not_a_text ascii_lower (VNum 7)). by right.
Defined.

Lemma aligned_group_own_keys_witness :
  let wf : Agents.workflow := fun _ _ =>
    Ok [("results", VDict [("final_plan", VDict [("plan", VStr "Study plan")])])] in
  let agents := Executor.AgentExecutor_init wf Agents.failing_workflow wf in
  let state := Executor.plan_state ["PLANNER"; "ADVISOR"] [["PLANNER"; "ADVISOR"]] in
  exists results,
    Executor.execute ascii_lower agents state 0 = Ok (Executor.outputs results) /\
    dict_lookup "planner" results = Some (VDict [("plan", VStr "Study plan")]) /\
    dict_lookup "advisor" results =
      Some (VDict [("advice", VStr "No guidance generated.")]) /\
    dict_lookup "notewriter" results = None.
Proof.
  intros wf agents state.
  destruct (aligned_group_own_keys ascii_lower agents
              (VList [VStr "PLANNER"; VStr "ADVISOR"]) state
              ["PLANNER"; "ADVISOR"]
              [Agents.PlannerAgent_call wf; Agents.AdvisorAgent_call wf] 0)
    as (results & Hrun & Hown & Hother).
  - reflexivity.
  - by repeat constructor.
  - by apply (bool_decide_unpack _).
  - by exists 0, (Agents.PlannerAgent_call wf),
      (VDict [("plan", VStr "Study plan")]).
  - exists results. split; [exact Hrun|]. split; [|split].
    + exact (Hown 0 "PLANNER" _ eq_refl eq_refl).
    + exact (Hown 1 "ADVISOR" _ eq_refl eq_refl).
    + apply Hother. by apply (bool_decide_unpack _).
Defined.

Lemma coordinator_falls_back_witness :
  let llm : Coordinator.backend := fun _ _ => Ok (VStr "Thought: a Decision: b") in
  Coordinator.coordinator_agent ascii_lower llm [] (VDict [])
    = Ok Coordinator.coordinator_fallback /\
  Coordinator.coordinator_agent ascii_lower llm
    [{| Coordinator.is_human := true; Coordinator.content := "plan my week" |}]
    (VDict [("profile", VNone)])
    = Ok Coordinator.coordinator_fallback.
Proof.
  intros llm. split.
  - apply (coordinator_falls_back ascii_lower llm [] []). by left.
  - apply (coordinator_falls_back ascii_lower llm
             [{| Coordinator.is_human := true;
                 Coordinator.content := "plan my week" |}]
             [("profile", VNone)]).
    by right.
Defined.

Lemma coordinator_then_execute_witness :
  let response := VStr "Thought: notes and guidance. Decision: NOTEWRITER, ADVISOR" in
  let llm : Coordinator.backend := fun _ _ => Ok response in
  let messages :=
    [{| Coordinator.is_human := true; Coordinator.content := "notes please" |}] in
  let analysis :=
    Coordinator.coordinator_analysis
      (ContextUtils.parse_coordinator_response ascii_lower response) response in
  let old := [("agent_outputs", VDict [])] in
  let state :=
    VDict [("results", VDict [("agent_outputs", VDict []);
                              ("coordinator_analysis", analysis)])] in
  let wf : Agents.workflow := fun _ _ =>
    Ok [("results", VDict [("final_plan", VDict [("plan", VStr "Study plan")]);
                           ("generated_notes", VDict [("notes", VStr "Notes")]);
                           ("guidance", VDict [("advice", VStr "Advice")])])] in
  "ADVISOR" ∈ ContextUtils.required_agents
                (ContextUtils.parse_coordinator_response ascii_lower response) /\
  Executor.execute ascii_lower (Executor.AgentExecutor_init wf wf wf) state 0
    = Ok (Executor.outputs [("planner", VDict [("plan", VStr "Study plan")]);
                            ("notewriter", VDict [("notes", VStr "Notes")])]) /\
  exists payload group,
    py_subscript analysis "concurrent_groups" = Ok (VList [VList (VStr <$> group)]) /\
    Agents.PlannerAgent_call wf 0 state = Ok payload /\
    ((group = ["PLANNER"] /\
      Executor.execute ascii_lower (Executor.AgentExecutor_init wf wf wf) state 0
        = Ok (Executor.outputs [(ascii_lower "PLANNER", payload)])) \/
     (group = ["PLANNER"; "NOTEWRITER"] /\
      exists notes,
        Agents.NoteWriterAgent_call wf 1 state = Ok notes /\
        Executor.execute ascii_lower (Executor.AgentExecutor_init wf wf wf) state 0
          = Ok (Executor.outputs
                  (dict_set (ascii_lower "NOTEWRITER") notes
                     [(ascii_lower "PLANNER", payload)])))).
Proof.
  intros response llm messages analysis old state wf.
  split; [by apply (bool_decide_unpack _)|]. split; [reflexivity|].
  apply (coordinator_then_execute ascii_lower llm messages (VDict []) analysis
           state old wf wf wf 0).
  - reflexivity.
  - reflexivity.
  - reflexivity.
Defined.

Lemma route_some_entry_nodes_witness :
  let state := Executor.plan_state ["PLANNER"; "ADVISOR"] [["PLANNER"]] in
  Graph.route_to_parallel_agents state
    = Ok ["calendar_analyzer"; "advisor_analyze"] /\
  sublist ["calendar_analyzer"; "advisor_analyze"] Graph.entry_nodes.
Proof.
  intros state. split; [reflexivity|].
  apply (route_some_entry_nodes state ["calendar_analyzer"; "advisor_analyze"]).
  reflexivity.
Defined.

Lemma route_coordinator_plan_witness :
  let response := VStr "Thought: guidance is needed. Decision: ADVISOR" in
  let plan := ContextUtils.parse_coordinator_response ascii_lower response in
  let analysis := Coordinator.coordinator_analysis plan response in
  let state := VDict [("results", VDict [("coordinator_analysis", analysis)])] in
  exists nodes,
    Graph.route_to_parallel_agents state = Ok ("calendar_analyzer" :: nodes) /\
    ("notewriter_analyze" ∈ nodes <->
     "NOTEWRITER" ∈ ContextUtils.required_agents plan) /\
    ("advisor_analyze" ∈ nodes <->
     "ADVISOR" ∈ ContextUtils.required_agents plan).
Proof.
  intros response plan analysis state.
  apply (route_coordinator_plan ascii_lower response response state
           (VDict [("coordinator_analysis", analysis)])).
  - reflexivity.
  - reflexivity.
Defined.

Lemma analyze_context_defaults_witness :
  Coordinator.analyze_context ascii_lower
    [{| Coordinator.is_human := true; Coordinator.content := "Plan my week" |}]
    (VDict [("messages", VList [])]) =
    Ok (VDict [("student", VDict [("major", VStr "Unknown");
                                  ("year", VNone);
                                  ("learning_style", VDict [])]);
               ("course", VNone);
               ("upcoming_events", VNum 0);
               ("active_tasks", VNum 0);
               ("study_patterns", VDict [])]).
Proof.
  apply (analyze_context_defaults ascii_lower
           [{| Coordinator.is_human := true;
               Coordinator.content := "Plan my week" |}]
           {| Coordinator.is_human := true; Coordinator.content := "Plan my week" |}
           [("messages", VList [])]); reflexivity.
Defined.

Lemma analyze_context_counts_witness :
  let messages :=
    [{| Coordinator.is_human := true; Coordinator.content := "Help with Algebra" |}] in
  let state :=
    VDict [("profile", VDict [("academic_info", VDict [("current_courses",
              VList [VDict [("name", VStr "Algebra")]])])]);
           ("calendar", VDict [("events", VList [VDict []; VDict []])]);
           ("tasks", VDict [("tasks", VList [VDict []])])] in
  exists student course study_patterns,
    Coordinator.analyze_context ascii_lower messages state =
      Ok (VDict [("student", student);
                 ("course", course);
                 ("upcoming_events", VNum 2);
                 ("active_tasks", VNum 1);
                 ("study_patterns", study_patterns)]).
Proof.
  intros messages state.
  destruct (Coordinator.analyze_context ascii_lower messages state)
    as [e|context] eqn:Hrun; [discriminate Hrun|].
  destruct (analyze_context_counts ascii_lower messages state context Hrun)
    as (student & course & events & tasks & patterns & -> & _ & _ & He & Ht).
  exists student, course, patterns.
  rewrite (He (VDict [("events", VList [VDict []; VDict []])])
              [VDict []; VDict []] eq_refl eq_refl).
  rewrite (Ht (VDict [("tasks", VList [VDict []])]) [VDict []] eq_refl eq_refl).
  reflexivity.
Defined.

Lemma worker_reads_final_state_witness :
  let wf : Agents.workflow := fun _ _ =>
    Ok [("results", VDict [("guidance", VDict [("advice", VStr "Rest")])])] in
  let bare : Agents.workflow := fun _ _ => Ok [("messages", VList [])] in
  Agents.agent_call Agents.Advisor wf 0 (VDict [])
    = Ok (VDict [("advice", VStr "Rest")]) /\
  Agents.agent_call Agents.Planner wf 0 (VDict [])
    = Ok (VDict [("plan", VStr "No plan generated.")]) /\
  Agents.agent_call Agents.NoteWriter bare 0 (VDict [])
    = Ok (VDict [("notes", VStr "Error generating notes: 'results'")]).
Proof.
  intros wf bare. split; [|split].
  - apply (proj1 (worker_reads_final_state Agents.Advisor wf 0 (VDict [])
                    _ eq_refl)
             [("guidance", VDict [("advice", VStr "Rest")])]
             [("advice", VStr "Rest")] (VStr "Rest")); reflexivity.
  - apply (proj1 (proj2 (worker_reads_final_state Agents.Planner wf 0 (VDict [])
                           _ eq_refl))
             [("guidance", VDict [("advice", VStr "Rest")])]); [reflexivity|].
    by left.
  - apply (proj2 (proj2 (worker_reads_final_state Agents.NoteWriter bare 0
                           (VDict []) _ eq_refl))).
    reflexivity.
Defined.

Lemma prompt_of_two_parts_witness :
  let system := {| GeminiLLM.role := Some "system";
                   GeminiLLM.content := Some "You are a planner." |} in
  let user := {| GeminiLLM.role := None; GeminiLLM.content := Some "Plan." |} in
  GeminiLLM._convert_messages_to_prompt [system; user] =
    "You are a planner." ++ (GeminiLLM.newline ++ GeminiLLM.newline)
      ++ "User: Plan.".
Proof.
  intros system user.
  destruct (prompt_of_two_parts [system] [user]) as [Happ Huser]; [done|done|].
  change [system; user] with ([system] ++ [user])%list.
  rewrite Happ, (Huser user); [reflexivity|done|done].
Defined.

Lemma merge_never_overwrites_witness :
  exists h' r,
    Reducers.Store.dict_reducer 2 Reducers.Store.docstring_store 1 3
      = Some (h', r) /\
    r = 4 /\ 4 < length h' /\
    forall l d, Reducers.Store.docstring_store !! l = Some d -> h' !! l = Some d.
Proof.
  destruct (Reducers.Store.dict_reducer 2 Reducers.Store.docstring_store 1 3)
    as [[h' r]|] eqn:Hrun; [|discriminate Hrun].
  exists h', r. split; [reflexivity|].
  exact (merge_never_overwrites 2 Reducers.Store.docstring_store h' 1 3 r Hrun).
Defined.

Lemma merge_shares_values_witness :
  let h := [ [("x", Reducers.Store.SNum 1)];
             [("a", Reducers.Store.SRef 0); ("keep", Reducers.Store.SRef 0)];
             [("y", Reducers.Store.SNum 2)];
             [("a", Reducers.Store.SRef 2); ("new", Reducers.Store.SRef 2)] ] in
  exists h' r merged,
    Reducers.Store.dict_reducer 2 h 1 3 = Some (h', r) /\
    h' !! r = Some merged /\
    dict_lookup "keep" merged = Some (Reducers.Store.SRef 0) /\
    dict_lookup "new" merged = Some (Reducers.Store.SRef 2) /\
    exists c, dict_lookup "a" merged = Some (Reducers.Store.SRef c) /\ 4 < c.
Proof.
  intros h.
  destruct (Reducers.Store.dict_reducer 2 h 1 3) as [[h' r]|] eqn:Hrun;
    [|discriminate Hrun].
  destruct (merge_shares_values 2 h h' 1 3 r
              [("a", Reducers.Store.SRef 0); ("keep", Reducers.Store.SRef 0)]
              [("a", Reducers.Store.SRef 2); ("new", Reducers.Store.SRef 2)]
              eq_refl eq_refl)
    as (merged & Hm & Hold & Hnew); [by apply (bool_decide_unpack _)|exact Hrun|].
  exists h', r, merged. split; [reflexivity|]. split; [exact Hm|].
  split; [exact (Hold "keep" eq_refl)|].
  split; [exact (Hnew "new" _ eq_refl)|].
  exact (Hnew "a" _ eq_refl).
Defined.
